(** * CareSync: the queue handlers and the socket broadcaster

    A shallow embedding of the Express handlers of the queue service
    (getDoctorQueue, getPatientQueuePosition, getQueueTotal,
    deleteQueueEntry, createFutureAppointment, markQueueEntryPending) and
    of the socket.io broadcaster (initializeSocket), with the properties
    of the specification stated over them.

    Layout: JavaScript values and coercions; the Ledger (the tables
    behind the Prisma client) and its calls; the handler monad (state,
    exceptions, try/catch); the handlers; the broadcaster; then the
    theorems. *)

From Stdlib Require Import ZArith List String Bool Lia Permutation Sorted.
Import ListNotations.
Local Open Scope Z_scope.
Local Open Scope string_scope.

(** ** JavaScript values carried by a request *)

(** Numbers are the integers and NaN: the numeric columns of the tables
    are integer columns, and NaN is what [Number] gives on a missing or
    non-numeric field. *)
Inductive number : Type :=
| NaN
| Int (z : Z).

(** The scalar JSON values a request field can hold; [Undefined] is what
    destructuring gives for a field that is absent. *)
Inductive value : Type :=
| Undefined
| Null
| Boolean (b : bool)
| Num (n : number)
| Str (s : string).

(** A JavaScript object used as a map from field names to values
    (req.params, req.query, req.body). *)
Definition object : Type := list (string * value).

Fixpoint get (k : string) (o : object) : value :=
  match o with
  | [] => Undefined
  | (k', v) :: o' => if String.eqb k k' then v else get k o'
  end.

Record Request : Type := mkRequest {
  params : object;
  query : object;
  body : object
}.

(** ** The Ledger: tables and records *)

(** Modelled from the spec: the identifier type of [hospitalId] (the
    Prisma schema is not among the sources; the spec's data model calls
    it an identifier and writes "H1" for one). *)
Inductive ident : Type :=
| IdNum (z : Z)
| IdStr (s : string).

(** Modelled from the spec: QueueKey of the data model, `{ doctorId:
    integer, appointmentDate: calendar-date, hospitalId: identifier }`.
    A date is held as its time value (milliseconds since the epoch),
    which an ISO string denotes one to one. *)
Record QueueKey : Type := mkKey {
  doctorId : Z;
  appointmentDate : Z;
  hospitalId : ident
}.

(** Modelled from the spec: QueueEntry of the data model, the row type of
    the queue table (the Prisma schema is not among the sources). *)
Record QueueEntry : Type := mkEntry {
  key : QueueKey;
  position : Z;
  ticketRef : Z;
  pending : bool;
  createdAt : Z
}.

(** Modelled from the spec: the ticket record a queue entry links to,
    owned by the ticket subsystem; its content is opaque here. *)
Record Ticket : Type := mkTicket {
  ticketId : Z;
  ticketData : string
}.

(** Modelled from the spec: FutureAppointmentRef, `{doctorId, patientId,
    futureAppointmentDate, notes}`. The handler passes three of the
    fields on as it received them, so they are held as request values. *)
Record FutureReference : Type := mkFutureReference {
  fr_doctorId : value;
  fr_patientId : value;
  fr_futureAppointmentDate : Z;
  fr_notes : value
}.

Record Ledger : Type := mkLedger {
  queue : list QueueEntry;
  tickets : list Ticket;
  futureReferences : list FutureReference
}.

(** The `where` object of the queue calls. [w_pending] and [w_position]
    are [None] when the handler leaves the field out. *)
Record QueueWhere : Type := mkWhere {
  w_doctorId : number;
  w_appointmentDate : Z;
  w_hospitalId : value;
  w_pending : option bool;
  w_position : option number
}.

Inductive QueueShape : Type :=
| IncludeTicket      (* include: { ticket: true } *)
| SelectPosition.    (* select: { position: true } *)

(** The calls the handlers make on the Prisma client. *)
Inductive LedgerCall : Type :=
| QueueFindMany (wh : QueueWhere) (orderByPosition : bool) (shape : QueueShape)
| QueueDeleteMany (wh : QueueWhere)
| QueueUpdateMany (wh : QueueWhere) (dataPending : bool)
| FutureReferenceCreate (data : FutureReference).

(** ** What the sources leave to their environment

    - [queueRequest]: the zod schema of QueueServiceTypes (not among the
      sources), as the `success` flag of `queueRequest.safeParse`;
    - [StringToNumber]: the runtime's conversion of a string by [Number];
    - [DateParse]: the runtime's `Date.parse`, [None] for NaN;
    - [ledgerRuns]: whether the Prisma client executes a call or throws
      (arguments that do not fit the schema, a store that cannot be
      reached). *)
Class Env : Type := mkEnv {
  queueRequest : object -> bool;
  StringToNumber : string -> number;
  DateParse : string -> option Z;
  ledgerRuns : LedgerCall -> bool
}.

(** ** Matching, ordering and joining rows *)

Definition numberIs (n : number) (z : Z) : bool :=
  match n with
  | NaN => false
  | Int v => Z.eqb v z
  end.

(** An `undefined` field of a `where` object is no condition at all. *)
Definition identIs (v : value) (i : ident) : bool :=
  match v, i with
  | Undefined, _ => true
  | Num n, IdNum z => numberIs n z
  | Str s, IdStr s' => String.eqb s s'
  | _, _ => false
  end.

Definition matchesWhere (wh : QueueWhere) (e : QueueEntry) : bool :=
  numberIs (w_doctorId wh) (doctorId (key e))
  && Z.eqb (w_appointmentDate wh) (appointmentDate (key e))
  && identIs (w_hospitalId wh) (hospitalId (key e))
  && match w_pending wh with
     | None => true
     | Some b => Bool.eqb b (pending e)
     end
  && match w_position wh with
     | None => true
     | Some n => numberIs n (position e)
     end.

(** orderBy: { position: "asc" }, as a stable insertion sort over the
    stored order. *)
Fixpoint insertByPosition (e : QueueEntry) (l : list QueueEntry) : list QueueEntry :=
  match l with
  | [] => [e]
  | x :: l' =>
      if Z.leb (position e) (position x) then e :: l
      else x :: insertByPosition e l'
  end.

Definition sortByPosition (l : list QueueEntry) : list QueueEntry :=
  fold_right insertByPosition [] l.

Definition selectRows (wh : QueueWhere) (orderByPosition : bool) (l : Ledger)
  : list QueueEntry :=
  let rows := filter (matchesWhere wh) (queue l) in
  if orderByPosition then sortByPosition rows else rows.

(** A queue row with its `ticket` relation loaded. *)
Record QueueWithTicket : Type := mkJoined {
  entry : QueueEntry;
  ticket : option Ticket
}.

Definition findTicket (l : Ledger) (ref : Z) : option Ticket :=
  find (fun t => Z.eqb (ticketId t) ref) (tickets l).

Definition joinTicket (l : Ledger) (e : QueueEntry) : QueueWithTicket :=
  {| entry := e; ticket := findTicket l (ticketRef e) |}.

Definition setPending (b : bool) (e : QueueEntry) : QueueEntry :=
  {| key := key e; position := position e; ticketRef := ticketRef e;
     pending := b; createdAt := createdAt e |}.

Definition withQueue (l : Ledger) (q : list QueueEntry) : Ledger :=
  {| queue := q; tickets := tickets l; futureReferences := futureReferences l |}.

(** ** Queues, slots and tables: the words of the properties *)

(** An identifier as the value a request carries for it. *)
Definition identValue (i : ident) : value :=
  match i with
  | IdNum z => Num (Int z)
  | IdStr s => Str s
  end.

(** The `where` object that names the queue [k], with the conditions on
    [pending] and [position] the caller adds. *)
Definition keyWhere (k : QueueKey) (pend : option bool) (pos : option Z) : QueueWhere :=
  {| w_doctorId := Int (doctorId k);
     w_appointmentDate := appointmentDate k;
     w_hospitalId := identValue (hospitalId k);
     w_pending := pend;
     w_position := option_map Int pos |}.

Definition ident_eqb (i j : ident) : bool :=
  match i, j with
  | IdNum a, IdNum b => Z.eqb a b
  | IdStr a, IdStr b => String.eqb a b
  | _, _ => false
  end.

Definition QueueKey_eqb (a b : QueueKey) : bool :=
  Z.eqb (doctorId a) (doctorId b)
  && Z.eqb (appointmentDate a) (appointmentDate b)
  && ident_eqb (hospitalId a) (hospitalId b).

(** The entries of the queue [k] in a table, in stored order. *)
Definition entriesOf (k : QueueKey) (q : list QueueEntry) : list QueueEntry :=
  filter (fun e => QueueKey_eqb (key e) k) q.

(** The entry sits at position [p] of the queue [k]. *)
Definition atSlot (k : QueueKey) (p : Z) (e : QueueEntry) : bool :=
  QueueKey_eqb (key e) k && Z.eqb (position e) p.

(** The slot of an entry: its queue and its position in it. *)
Definition slot (e : QueueEntry) : QueueKey * Z := (key e, position e).

(** I1: no two entries of a table share a slot. *)
Definition UniquePositions (q : list QueueEntry) : Prop := NoDup (map slot q).

(** The rows are in ascending order of position. *)
Definition Ascending (l : list QueueEntry) : Prop :=
  StronglySorted (fun a b => position a <= position b) l.

(** [Evolves q q']: the table [q'] is the table [q] with some rows
    removed and some rows called forward ([pending] set); every other
    row is as it was, and the rows keep their order. *)
Inductive Evolves : list QueueEntry -> list QueueEntry -> Prop :=
| evolves_nil : Evolves [] []
| evolves_removed e l l' : Evolves l l' -> Evolves (e :: l) l'
| evolves_kept e l l' : Evolves l l' -> Evolves (e :: l) (e :: l')
| evolves_called e l l' : Evolves l l' -> Evolves (e :: l) (setPending true e :: l').

(** ** The handler monad: state, exceptions, try/catch *)

Inductive Exn : Type :=
| RangeError       (* toISOString on an invalid Date *)
| PrismaError.     (* thrown by the Prisma client *)

Inductive Outcome (A : Type) : Type :=
| Returned (a : A)
| Thrown (e : Exn).
Arguments Returned {A} a.
Arguments Thrown {A} e.

(** The state a handler runs in: the Ledger, and the calls made on the
    Prisma client so far, oldest first. *)
Record World : Type := mkWorld {
  ledger : Ledger;
  trace : list LedgerCall
}.

Definition M (A : Type) : Type := World -> Outcome A * World.

Definition ret {A : Type} (a : A) : M A := fun w => (Returned a, w).

Definition throw {A : Type} (e : Exn) : M A := fun w => (Thrown e, w).

Definition bind {A B : Type} (m : M A) (f : A -> M B) : M B :=
  fun w =>
    match m w with
    | (Returned a, w') => f a w'
    | (Thrown e, w') => (Thrown e, w')
    end.

Definition tryCatch {A : Type} (m : M A) (h : Exn -> M A) : M A :=
  fun w =>
    match m w with
    | (Returned a, w') => (Returned a, w')
    | (Thrown e, w') => h e w'
    end.

Notation "x <- m ;; k" := (bind m (fun x => k))
  (at level 61, m at next level, right associativity).

(** ** Coercions of the runtime *)

Section Handlers.

Context {E : Env}.

(** Number(v) *)
Definition Number (v : value) : number :=
  match v with
  | Undefined => NaN
  | Null => Int 0
  | Boolean b => Int (if b then 1 else 0)
  | Num n => n
  | Str s => StringToNumber s
  end.

(** The largest time value of a Date, 8.64e15 milliseconds. *)
Definition maxTime : Z := 8640000000000000.

(** new Date(v): the time value of the Date, [None] for an invalid one. *)
Definition newDate (v : value) : option Z :=
  match v with
  | Undefined => None
  | Null => Some 0
  | Boolean b => Some (if b then 1 else 0)
  | Num NaN => None
  | Num (Int z) => if Z.leb (Z.abs z) maxTime then Some z else None
  | Str s => DateParse s
  end.

(** date.toISOString(): throws a RangeError on an invalid Date. *)
Definition toISOString (d : option Z) : M Z :=
  match d with
  | Some t => ret t
  | None => throw RangeError
  end.

(** ** The Prisma client *)

(** A call is recorded, then runs on the Ledger or throws. *)
Definition prisma {A : Type} (c : LedgerCall) (run : Ledger -> A * Ledger) : M A :=
  fun w =>
    if ledgerRuns c then
      let (a, l) := run (ledger w) in
      (Returned a, {| ledger := l; trace := trace w ++ [c] |})
    else (Thrown PrismaError, {| ledger := ledger w; trace := trace w ++ [c] |}).

Definition queue_findMany_include (wh : QueueWhere) (orderByPosition : bool)
  : M (list QueueWithTicket) :=
  prisma (QueueFindMany wh orderByPosition IncludeTicket)
    (fun l => (map (joinTicket l) (selectRows wh orderByPosition l), l)).

Definition queue_findMany_select (wh : QueueWhere) (orderByPosition : bool)
  : M (list Z) :=
  prisma (QueueFindMany wh orderByPosition SelectPosition)
    (fun l => (map position (selectRows wh orderByPosition l), l)).

Definition queue_deleteMany (wh : QueueWhere) : M nat :=
  prisma (QueueDeleteMany wh)
    (fun l => (List.length (filter (matchesWhere wh) (queue l)),
               withQueue l (filter (fun e => negb (matchesWhere wh e)) (queue l)))).

Definition queue_updateMany (wh : QueueWhere) (dataPending : bool) : M nat :=
  prisma (QueueUpdateMany wh dataPending)
    (fun l => (List.length (filter (matchesWhere wh) (queue l)),
               withQueue l
                 (map (fun e => if matchesWhere wh e then setPending dataPending e else e)
                      (queue l)))).

Definition futureReference_create (data : FutureReference) : M FutureReference :=
  prisma (FutureReferenceCreate data)
    (fun l => (data,
               {| queue := queue l; tickets := tickets l;
                  futureReferences := futureReferences l ++ [data] |})).

(** ** Responses *)

Inductive Json : Type :=
| Message (m : string)                  (* { message: m } *)
| Queues (qs : list QueueWithTicket)    (* the rows, each with its ticket *)
| Position (p : option Z)               (* order[0]: { position } or undefined *)
| Total (n : nat)                       (* { total } *)
| Created (f : FutureReference).

Record Response : Type := mkResponse {
  status : Z;
  json : Json
}.

(** ** The handlers *)

Definition getDoctorQueue (req : Request) : M Response :=
  if negb (queueRequest (body req)) then
    ret (mkResponse 400 (Message "Invalid request"))
  else
    let doctorId := get "doctorId" (params req) in
    let appointmentDate := get "appointmentDate" (body req) in
    let hospitalId := get "hospitalId" (body req) in
    tryCatch
      (iso <- toISOString (newDate appointmentDate) ;;
       queues <- queue_findMany_include
                   {| w_doctorId := Number doctorId;
                      w_appointmentDate := iso;
                      w_hospitalId := hospitalId;
                      w_pending := None;
                      w_position := None |} true ;;
       ret (mkResponse 200 (Queues queues)))
      (fun _ => ret (mkResponse 500 (Message "Can't retrieve Queue data"))).

Definition getPatientQueuePosition (req : Request) : M Response :=
  if negb (queueRequest (body req)) then
    ret (mkResponse 400 (Message "Invalid request"))
  else
    let doctorId := get "doctorId" (query req) in
    let appointmentDate := get "appointmentDate" (body req) in
    let hospitalId := get "hospitalId" (body req) in
    tryCatch
      (iso <- toISOString (newDate appointmentDate) ;;
       order <- queue_findMany_select
                  {| w_doctorId := Number doctorId;
                     w_appointmentDate := iso;
                     w_hospitalId := hospitalId;
                     w_pending := Some false;
                     w_position := None |} true ;;
       let position := hd_error order in
       ret (mkResponse 200 (Position position)))
      (fun _ => ret (mkResponse 500 (Message "Can't retrieve Queue status data"))).

Definition getQueueTotal (req : Request) : M Response :=
  if negb (queueRequest (body req)) then
    ret (mkResponse 400 (Message "Invalid request"))
  else
    let doctorId := get "doctorId" (query req) in
    let appointmentDate := get "appointmentDate" (body req) in
    let hospitalId := get "hospitalId" (body req) in
    tryCatch
      (iso <- toISOString (newDate appointmentDate) ;;
       order <- queue_findMany_select
                  {| w_doctorId := Number doctorId;
                     w_appointmentDate := iso;
                     w_hospitalId := hospitalId;
                     w_pending := None;
                     w_position := None |} false ;;
       let total := List.length order in
       ret (mkResponse 200 (Total total)))
      (fun _ => ret (mkResponse 500 (Message "Can't retrieve Queue status data"))).

Definition deleteQueueEntry (req : Request) : M Response :=
  if negb (queueRequest (body req)) then
    ret (mkResponse 400 (Message "Invalid request"))
  else
    let doctorId := get "doctorId" (query req) in
    let position := get "position" (query req) in
    let appointmentDate := get "appointmentDate" (body req) in
    let hospitalId := get "hospitalId" (body req) in
    tryCatch
      (iso <- toISOString (newDate appointmentDate) ;;
       _ <- queue_deleteMany
              {| w_doctorId := Number doctorId;
                 w_appointmentDate := iso;
                 w_hospitalId := hospitalId;
                 w_pending := None;
                 w_position := Some (Number position) |} ;;
       ret (mkResponse 200 (Message "Queue deleted successfully")))
      (fun _ => ret (mkResponse 500 (Message "Can't delete Queue status data"))).

Definition createFutureAppointment (req : Request) : M Response :=
  let doctorId := get "doctorId" (body req) in
  let patientId := get "patientId" (body req) in
  let nextdate := get "nextdate" (body req) in
  let notes := get "notes" (body req) in
  tryCatch
    (iso <- toISOString (newDate nextdate) ;;
     futureReference <- futureReference_create
                          {| fr_doctorId := doctorId;
                             fr_patientId := patientId;
                             fr_futureAppointmentDate := iso;
                             fr_notes := notes |} ;;
     ret (mkResponse 201 (Created futureReference)))
    (fun _ => ret (mkResponse 500 (Message "Server error"))).

Definition markQueueEntryPending (req : Request) : M Response :=
  if negb (queueRequest (body req)) then
    ret (mkResponse 400 (Message "Invalid request"))
  else
    let doctorId := get "doctorId" (query req) in
    let position := get "position" (query req) in
    let appointmentDate := get "appointmentDate" (body req) in
    let hospitalId := get "hospitalId" (body req) in
    tryCatch
      (iso <- toISOString (newDate appointmentDate) ;;
       _ <- queue_updateMany
              {| w_doctorId := Number doctorId;
                 w_appointmentDate := iso;
                 w_hospitalId := Num (Number hospitalId);
                 w_pending := None;
                 w_position := Some (Number position) |} true ;;
       ret (mkResponse 200 (Message "Queue entry marked as pending successfully")))
      (fun _ => ret (mkResponse 500 (Message "Can't update Queue status data"))).

(** ** The operations of the service, and runs of them *)

Inductive Op : Type :=
| GetDoctorQueue
| GetPatientQueuePosition
| GetQueueTotal
| DeleteQueueEntry
| CreateFutureAppointment
| MarkQueueEntryPending.

Definition handler (o : Op) : Request -> M Response :=
  match o with
  | GetDoctorQueue => getDoctorQueue
  | GetPatientQueuePosition => getPatientQueuePosition
  | GetQueueTotal => getQueueTotal
  | DeleteQueueEntry => deleteQueueEntry
  | CreateFutureAppointment => createFutureAppointment
  | MarkQueueEntryPending => markQueueEntryPending
  end.

(** The world after a handler has answered a request. *)
Definition after (o : Op) (req : Request) (w : World) : World :=
  snd (handler o req w).

(** The world after a sequence of requests, served one after another. *)
Fixpoint serve (rs : list (Op * Request)) (w : World) : World :=
  match rs with
  | [] => w
  | (o, req) :: rs' => serve rs' (after o req w)
  end.

(** ** What a request names *)

(** The request is accepted by the schema and names the queue [k]:
    [doctor] is the field the handler reads the doctor from, and the
    body carries the date and the hospital. *)
Record Names (doctor : value) (req : Request) (k : QueueKey) : Prop := {
  names_schema : queueRequest (body req) = true;
  names_doctor : Number doctor = Int (doctorId k);
  names_date : newDate (get "appointmentDate" (body req)) = Some (appointmentDate k);
  names_hospital : get "hospitalId" (body req) = identValue (hospitalId k)
}.

(** The request carries the position [p]. *)
Definition AtPosition (req : Request) (p : Z) : Prop :=
  Number (get "position" (query req)) = Int p.

(** The `where` object of markQueueEntryPending: the hospital it names
    is a number, whatever the body carries. *)
Definition pendingWhere (req : Request) (iso : Z) : QueueWhere :=
  {| w_doctorId := Number (get "doctorId" (query req));
     w_appointmentDate := iso;
     w_hospitalId := Num (Number (get "hospitalId" (body req)));
     w_pending := None;
     w_position := Some (Number (get "position" (query req))) |}.

(** The record createFutureAppointment hands to the Ledger. *)
Definition futureData (req : Request) (iso : Z) : FutureReference :=
  {| fr_doctorId := get "doctorId" (body req);
     fr_patientId := get "patientId" (body req);
     fr_futureAppointmentDate := iso;
     fr_notes := get "notes" (body req) |}.



End Handlers.

(** The same runtime with another Ledger behind it: the calls that run
    and the calls that throw are those of [runs]. Within one environment
    a call has one outcome; a Ledger that fails now and answers later is
    a change of environment between the two calls. *)
Definition withLedgerRuns (E : Env) (runs : LedgerCall -> bool) : Env :=
  {| queueRequest := @queueRequest E;
     StringToNumber := @StringToNumber E;
     DateParse := @DateParse E;
     ledgerRuns := runs |}.

(** The URL field a handler reads the doctor from. *)
Definition urlDoctor (o : Op) (req : Request) : value :=
  match o with
  | GetDoctorQueue => get "doctorId" (params req)
  | _ => get "doctorId" (query req)
  end.

(** The handlers that read a position from the URL. *)
Definition readsPosition (o : Op) : bool :=
  match o with
  | DeleteQueueEntry | MarkQueueEntryPending => true
  | _ => false
  end.

(** The `where` object of a call on the queue table. *)
Definition callWhere (c : LedgerCall) : option QueueWhere :=
  match c with
  | QueueFindMany wh _ _ => Some wh
  | QueueDeleteMany wh => Some wh
  | QueueUpdateMany wh _ => Some wh
  | FutureReferenceCreate _ => None
  end.

(** The body field a handler builds its date from. *)
Definition dateField (o : Op) : string :=
  match o with
  | CreateFutureAppointment => "nextdate"
  | _ => "appointmentDate"
  end.

(** The one kind of call each handler makes on the Prisma client. *)
Definition issues (o : Op) (c : LedgerCall) : bool :=
  match o, c with
  | GetDoctorQueue, QueueFindMany _ true IncludeTicket => true
  | GetPatientQueuePosition, QueueFindMany _ true SelectPosition => true
  | GetQueueTotal, QueueFindMany _ false SelectPosition => true
  | DeleteQueueEntry, QueueDeleteMany _ => true
  | CreateFutureAppointment, FutureReferenceCreate _ => true
  | MarkQueueEntryPending, QueueUpdateMany _ true => true
  | _, _ => false
  end.

(** The handlers that only read. *)
Definition isRead (o : Op) : bool :=
  match o with
  | GetDoctorQueue | GetPatientQueuePosition | GetQueueTotal => true
  | _ => false
  end.

(** ** The broadcaster (initializeSocket) *)

Module Socket.

Section Broadcaster.

(** What an event carries: `data` and `message` are passed on as they
    were received. *)
Variable Data : Type.

Record Event : Type := mkEvent {
  eventName : string;
  eventArgs : list Data
}.

(** A connected socket, with the events delivered to it so far, oldest
    first. *)
Record Client : Type := mkClient {
  socketId : string;
  received : list Event
}.

(** io: the sockets that are connected. *)
Definition Server : Type := list Client.

Definition deliver (ev : Event) (c : Client) : Client :=
  {| socketId := socketId c; received := received c ++ [ev] |}.

(** io.emit(name, ...args): to every connected socket. *)
Definition io_emit (name : string) (args : list Data) (io : Server) : Server :=
  map (deliver (mkEvent name args)) io.

(** The messages a socket can send that a listener is registered for. *)
Inductive Incoming : Type :=
| book_appointment (data : Data)
| sendTicketToUser (data : Data)
| doctorFetchQueue
| disconnect
| message (m : Data).

(** The listener that initializeSocket registers on a socket for each
    message; the console output is left out. *)
Definition on (msg : Incoming) (io : Server) : Server :=
  match msg with
  | book_appointment data => io_emit "patient-request" [data] io
  | sendTicketToUser data =>
      let io1 := io_emit "fetch-ticket" [] io in
      io_emit "UserTicket" [data] io1
  | doctorFetchQueue => io_emit "doctorFetchQueue" [] io
  | disconnect => io
  | message m => io_emit "message" [m] io
  end.

(** What reaches the server: a socket connects, or a socket sends a
    message. *)
Inductive Transport : Type :=
| connection (id : string)
| incoming (id : string) (msg : Incoming).

(** The connected sockets without the socket [id]. *)
Definition leave (id : string) (io : Server) : Server :=
  filter (fun c => negb (String.eqb (socketId c) id)) io.

(** One step of the server. A socket that connects has received
    nothing. A socket that disconnects is out of the connected ones
    when its `disconnect` listener runs. *)
Definition step (t : Transport) (io : Server) : Server :=
  match t with
  | connection id => (io ++ [{| socketId := id; received := [] |}])%list
  | incoming id disconnect => on disconnect (leave id io)
  | incoming _ msg => on msg io
  end.

(** The server after a sequence of steps. *)
Fixpoint run (ts : list Transport) (io : Server) : Server :=
  match ts with
  | [] => io
  | t :: ts' => run ts' (step t io)
  end.

(** The socket [id] does not disconnect in the sequence. *)
Fixpoint stays (ts : list Transport) (id : string) : bool :=
  match ts with
  | [] => true
  | incoming id' disconnect :: ts' => negb (String.eqb id id') && stays ts' id
  | _ :: ts' => stays ts' id
  end.

(** The messages of a sequence. *)
Fixpoint messages (ts : list Transport) : list Incoming :=
  match ts with
  | [] => []
  | connection _ :: ts' => messages ts'
  | incoming _ msg :: ts' => msg :: messages ts'
  end.

(** The payloads a message carries. *)
Definition payload (msg : Incoming) : list Data :=
  match msg with
  | book_appointment data => [data]
  | sendTicketToUser data => [data]
  | doctorFetchQueue => []
  | disconnect => []
  | message m => [m]
  end.

End Broadcaster.

Arguments mkEvent {Data} eventName eventArgs.
Arguments mkClient {Data} socketId received.
Arguments doctorFetchQueue {Data}.
Arguments disconnect {Data}.

End Socket.

(** ** An environment to run the handlers in

    Used where a statement is evaluated on a concrete request: a schema,
    the two parsers on the literals the examples use, and a Ledger that
    runs a call unless NaN stands in it for a number. *)

Module Sample.

(** Modelled from the spec: the schema of a queue request body, from the
    QueueKey of the data model (the zod schema of QueueServiceTypes is
    not among the sources): [appointmentDate] is a string and
    [hospitalId] is an identifier. *)
Definition schema (b : object) : bool :=
  match get "appointmentDate" b, get "hospitalId" b with
  | Str _, Str _ => true
  | Str _, Num (Int _) => true
  | _, _ => false
  end.

Definition digit (c : Ascii.ascii) : option Z :=
  let n := Z.of_nat (Ascii.nat_of_ascii c) in
  if Z.leb 48 n && Z.leb n 57 then Some (n - 48) else None.

Fixpoint digits (acc : Z) (s : string) : option Z :=
  match s with
  | EmptyString => Some acc
  | String c s' =>
      match digit c with
      | Some d => digits (10 * acc + d) s'
      | None => None
      end
  end.

(** [Number] on a string of decimal digits (the empty string is 0); NaN
    on a string with any other character. *)
Definition decimalToNumber (s : string) : number :=
  match digits 0 s with
  | Some z => Int z
  | None => NaN
  end.

(** Days from 1970-01-01 to a date of the proleptic Gregorian calendar. *)
Definition daysFromCivil (y m d : Z) : Z :=
  let y' := if Z.leb m 2 then y - 1 else y in
  let era := y' / 400 in
  let yoe := y' - era * 400 in
  let mp := if Z.ltb 2 m then m - 3 else m + 9 in
  let doy := (153 * mp + 2) / 5 + d - 1 in
  let doe := yoe * 365 + yoe / 4 - yoe / 100 + doy in
  era * 146097 + doe - 719468.

(** [Date.parse] on the date-only form YYYY-MM-DD (midnight UTC); NaN on
    any other string. *)
Definition isoDateParse (s : string) : option Z :=
  if negb (Nat.eqb (String.length s) 10) then None
  else if negb (String.eqb (substring 4 1 s) "-" && String.eqb (substring 7 1 s) "-")
  then None
  else
    match digits 0 (substring 0 4 s), digits 0 (substring 5 2 s),
          digits 0 (substring 8 2 s) with
    | Some y, Some m, Some d =>
        if Z.leb 1 m && Z.leb m 12 && Z.leb 1 d && Z.leb d 31
        then Some (daysFromCivil y m d * 86400000)
        else None
    | _, _, _ => None
    end.

(** NaN stands for a number in the `where` object. *)
Definition hasNaN (wh : QueueWhere) : bool :=
  match w_doctorId wh, w_hospitalId wh, w_position wh with
  | NaN, _, _ => true
  | _, Num NaN, _ => true
  | _, _, Some NaN => true
  | _, _, _ => false
  end.

(** The Prisma client throws on a `where` object with NaN for a number,
    and on a future reference whose doctor or patient is no integer. *)
Definition runs (c : LedgerCall) : bool :=
  match c with
  | QueueFindMany wh _ _ => negb (hasNaN wh)
  | QueueDeleteMany wh => negb (hasNaN wh)
  | QueueUpdateMany wh _ => negb (hasNaN wh)
  | FutureReferenceCreate data =>
      match fr_doctorId data, fr_patientId data with
      | Num (Int _), Num (Int _) => true
      | _, _ => false
      end
  end.

Definition env : Env :=
  {| queueRequest := schema;
     StringToNumber := decimalToNumber;
     DateParse := isoDateParse;
     ledgerRuns := runs |}.



(** The queue of scenario 1 of the spec, doctor 5 on 2024-10-10 at
    hospital "H1", with one more entry at another hospital. *)
Definition day : Z := 1728518400000.

Definition h1 : QueueKey :=
  {| doctorId := 5; appointmentDate := day; hospitalId := IdStr "H1" |}.

Definition n7 : QueueKey :=
  {| doctorId := 5; appointmentDate := day; hospitalId := IdNum 7 |}.

Definition entryAt (k : QueueKey) (p t : Z) (pend : bool) : QueueEntry :=
  {| key := k; position := p; ticketRef := t; pending := pend; createdAt := 0 |}.

Definition store : Ledger :=
  {| queue := [entryAt h1 2 103 false; entryAt h1 0 101 false;
               entryAt n7 0 201 false; entryAt h1 1 102 false];
     tickets := [mkTicket 101 "A"; mkTicket 102 "B"; mkTicket 103 "C";
                 mkTicket 201 "D"];
     futureReferences := [] |}.

Definition world : World := {| ledger := store; trace := [] |}.

(** A request for the queue [h1], and one for [n7], at position [p]. *)
Definition request (hospital : value) (p : string) : Request :=
  {| params := [("doctorId", Str "5")];
     query := [("doctorId", Str "5"); ("position", Str p)];
     body := [("appointmentDate", Str "2024-10-10"); ("hospitalId", hospital)] |}.

(** The request of a client that left the doctor out of the URL. *)
Definition noDoctor : Request :=
  {| params := [];
     query := [("position", Str "1")];
     body := [("appointmentDate", Str "2024-10-10"); ("hospitalId", Str "H1")] |}.

(** The world after the entry at position 0 of [n7] has been called. *)
Definition called : World :=
  snd (@markQueueEntryPending env (request (Num (Int 7)) "0") world).

(** Requests served after that: a removal in the other queue, then a
    removal of a position that no entry has. *)
Definition later : list (Op * Request) :=
  [(DeleteQueueEntry, request (Str "H1") "1");
   (DeleteQueueEntry, request (Num (Int 7)) "9")].

(** A second world: three patients wait at hospital 7, one at "H1". *)
Definition clinic : World :=
  {| ledger :=
       {| queue := [entryAt n7 1 302 false; entryAt n7 0 301 false;
                    entryAt h1 0 101 false; entryAt n7 2 303 false];
          tickets := [mkTicket 101 "A"; mkTicket 301 "E"; mkTicket 302 "F";
                      mkTicket 303 "G"];
          futureReferences := [] |};
     trace := [] |}.

(** A request whose date is no date. *)
Definition noDate : Request :=
  {| params := [("doctorId", Str "5")];
     query := [("doctorId", Str "5")];
     body := [("appointmentDate", Str "tomorrow"); ("hospitalId", Str "H1")] |}.

(** A queue that has no entry, and a request for it. *)
Definition d6 : QueueKey :=
  {| doctorId := 6; appointmentDate := day; hospitalId := IdStr "H1" |}.

Definition doctor6 : Request :=
  {| params := [("doctorId", Str "6")];
     query := [("doctorId", Str "6")];
     body := [("appointmentDate", Str "2024-10-10"); ("hospitalId", Str "H1")] |}.




End Sample.

(** * Properties *)

#[local] Hint Constructors Evolves : core.

Ltac unfold_handlers :=
  unfold after, handler, getDoctorQueue, getPatientQueuePosition, getQueueTotal,
    deleteQueueEntry, createFutureAppointment, markQueueEntryPending,
    tryCatch, bind, toISOString, queue_findMany_include, queue_findMany_select,
    queue_deleteMany, queue_updateMany, futureReference_create, prisma, ret, throw.

Ltac split_cases :=
  repeat match goal with
         | |- context [if ?c then _ else _] => destruct c eqn:?
         | |- context [match ?x with Some _ => _ | None => _ end] => destruct x eqn:?
         end; simpl.

Ltac use_names H :=
  destruct H as [Hschema Hdoctor Hdate Hhospital];
  unfold_handlers; rewrite Hschema; simpl; rewrite Hdate, Hdoctor, Hhospital.

(** ** Ordering by position *)

Lemma insertByPosition_perm (e : QueueEntry) (l : list QueueEntry) :
  Permutation (insertByPosition e l) (e :: l).
Proof.
  induction l as [|x l IH]; simpl.
  - apply Permutation_refl.
  - destruct (Z.leb (position e) (position x)).
    + apply Permutation_refl.
    + apply perm_trans with (x :: e :: l).
      * apply perm_skip, IH.
      * apply perm_swap.
Qed.

Lemma sortByPosition_perm (l : list QueueEntry) :
  Permutation (sortByPosition l) l.
Proof.
  induction l as [|x l IH]; simpl.
  - apply perm_nil.
  - apply perm_trans with (x :: sortByPosition l).
    + apply insertByPosition_perm.
    + apply perm_skip, IH.
Qed.

Lemma insertByPosition_ascending (e : QueueEntry) (l : list QueueEntry) :
  Ascending l -> Ascending (insertByPosition e l).
Proof.
  unfold Ascending.
  induction l as [|x l IH]; intros Hs; simpl.
  - constructor; constructor.
  - destruct (Z.leb (position e) (position x)) eqn:Hle.
    + apply Z.leb_le in Hle.
      constructor; [exact Hs|].
      inversion Hs as [|? ? _ Hall]; subst.
      constructor; [exact Hle|].
      eapply Forall_impl; [|exact Hall].
      simpl; intros; lia.
    + apply Z.leb_gt in Hle.
      inversion Hs as [|? ? Hs' Hall]; subst.
      constructor; [apply IH, Hs'|].
      apply Forall_forall; intros y Hy.
      apply (Permutation_in _ (insertByPosition_perm e l)) in Hy.
      destruct Hy as [<-|Hy]; [lia|].
      rewrite Forall_forall in Hall; apply Hall, Hy.
Qed.

Lemma sortByPosition_ascending (l : list QueueEntry) :
  Ascending (sortByPosition l).
Proof.
  induction l as [|x l IH]; simpl.
  - constructor.
  - apply insertByPosition_ascending, IH.
Qed.

Lemma sortByPosition_In (l : list QueueEntry) (e : QueueEntry) :
  In e (sortByPosition l) <-> In e l.
Proof.
  split; apply Permutation_in;
    [apply sortByPosition_perm | apply Permutation_sym, sortByPosition_perm].
Qed.

(** The first row of an ascending list has the least position. *)
Lemma ascending_head_least (e : QueueEntry) (l : list QueueEntry) :
  Ascending (e :: l) -> forall x, In x (e :: l) -> position e <= position x.
Proof.
  intros Hs x [<-|Hx]; [lia|].
  inversion Hs as [|? ? _ Hall]; subst.
  rewrite Forall_forall in Hall; apply Hall, Hx.
Qed.

(** ** Keys and `where` objects *)

Lemma ident_eqb_eq (i j : ident) : ident_eqb i j = true <-> i = j.
Proof.
  destruct i, j; simpl; split; intros H; try discriminate.
  - apply Z.eqb_eq in H; congruence.
  - inversion H; apply Z.eqb_refl.
  - apply String.eqb_eq in H; congruence.
  - inversion H; apply String.eqb_refl.
Qed.

Lemma QueueKey_eqb_eq (a b : QueueKey) : QueueKey_eqb a b = true <-> a = b.
Proof.
  unfold QueueKey_eqb; destruct a, b; simpl.
  rewrite !andb_true_iff, !Z.eqb_eq, ident_eqb_eq.
  split; [intros [[-> ->] ->]; reflexivity | intros H; inversion H; auto].
Qed.

Lemma identIs_identValue (i j : ident) :
  identIs (identValue i) j = ident_eqb j i.
Proof.
  destruct i, j; simpl; auto using Z.eqb_sym.
  apply eq_true_iff_eq; rewrite !String.eqb_eq; split; congruence.
Qed.

Lemma matchesWhere_keyWhere (k : QueueKey) (pend : option bool) (pos : option Z)
      (e : QueueEntry) :
  matchesWhere (keyWhere k pend pos) e
  = QueueKey_eqb (key e) k
    && match pend with None => true | Some b => Bool.eqb b (pending e) end
    && match pos with None => true | Some p => Z.eqb (position e) p end.
Proof.
  unfold matchesWhere, keyWhere, QueueKey_eqb; simpl.
  rewrite identIs_identValue.
  rewrite (Z.eqb_sym (doctorId k)), (Z.eqb_sym (appointmentDate k)).
  destruct pos as [p|]; simpl; [rewrite (Z.eqb_sym p)|]; reflexivity.
Qed.

Lemma matchesWhere_queue (k : QueueKey) (e : QueueEntry) :
  matchesWhere (keyWhere k None None) e = QueueKey_eqb (key e) k.
Proof. rewrite matchesWhere_keyWhere, !andb_true_r; reflexivity. Qed.

Lemma matchesWhere_slot (k : QueueKey) (p : Z) (e : QueueEntry) :
  matchesWhere (keyWhere k None (Some p)) e = atSlot k p e.
Proof. rewrite matchesWhere_keyWhere, andb_true_r; reflexivity. Qed.

(** ** How a table changes over time *)

Lemma Evolves_refl (l : list QueueEntry) : Evolves l l.
Proof. induction l; auto. Qed.

Lemma setPending_twice (b : bool) (e : QueueEntry) :
  setPending b (setPending b e) = setPending b e.
Proof. reflexivity. Qed.

Lemma Evolves_trans (a b c : list QueueEntry) :
  Evolves a b -> Evolves b c -> Evolves a c.
Proof.
  intros Hab; revert c.
  induction Hab as [|e l l' _ IH|e l l' _ IH|e l l' _ IH]; intros c Hbc; auto.
  - inversion Hbc; subst; auto.
  - inversion Hbc; subst; auto.
    rewrite setPending_twice; auto.
Qed.

Lemma Evolves_filter (f : QueueEntry -> bool) (l : list QueueEntry) :
  Evolves l (filter f l).
Proof. induction l as [|e l IH]; simpl; [|destruct (f e)]; auto. Qed.

Lemma Evolves_update (f : QueueEntry -> bool) (l : list QueueEntry) :
  Evolves l (map (fun e => if f e then setPending true e else e) l).
Proof. induction l as [|e l IH]; simpl; [|destruct (f e)]; auto. Qed.

(** Every row of the later table is a row of the earlier one, as it was
    or called forward. *)
Lemma Evolves_In (l l' : list QueueEntry) :
  Evolves l l' ->
  forall e', In e' l' -> exists e, In e l /\ (e' = e \/ e' = setPending true e).
Proof.
  induction 1 as [|e l l' _ IH|e l l' _ IH|e l l' _ IH]; intros e' Hin.
  - destruct Hin.
  - destruct (IH e' Hin) as [x [Hx Hd]]; exists x; simpl; auto.
  - destruct Hin as [<-|Hin].
    + exists e; simpl; auto.
    + destruct (IH e' Hin) as [x [Hx Hd]]; exists x; simpl; auto.
  - destruct Hin as [<-|Hin].
    + exists e; simpl; auto.
    + destruct (IH e' Hin) as [x [Hx Hd]]; exists x; simpl; auto.
Qed.

Lemma Evolves_slot_In (l l' : list QueueEntry) :
  Evolves l l' -> forall s, In s (map slot l') -> In s (map slot l).
Proof.
  intros H s Hs. apply in_map_iff in Hs. destruct Hs as [e' [<- He']].
  destruct (Evolves_In _ _ H e' He') as [e [He [->| ->]]];
    apply in_map_iff; exists e; auto.
Qed.

Lemma Evolves_unique (l l' : list QueueEntry) :
  Evolves l l' -> UniquePositions l -> UniquePositions l'.
Proof.
  unfold UniquePositions.
  induction 1 as [|e l l' H IH|e l l' H IH|e l l' H IH]; simpl; intros Hu; auto;
    inversion Hu as [|? ? Hnot Hrest]; subst; auto.
  - constructor; auto. intros Hin; apply Hnot. eapply Evolves_slot_In; eauto.
  - constructor; auto. intros Hin; apply Hnot. eapply Evolves_slot_In; eauto.
Qed.

(** Once every entry of a slot is pending, it stays so. *)
Lemma Evolves_pending (l l' : list QueueEntry) (P : QueueEntry -> bool) :
  (forall e, P (setPending true e) = P e) ->
  Evolves l l' ->
  (forall e, In e l -> P e = true -> pending e = true) ->
  forall e', In e' l' -> P e' = true -> pending e' = true.
Proof.
  intros HP Hev Hall e' Hin HPe.
  destruct (Evolves_In _ _ Hev e' Hin) as [e [He [->| ->]]]; auto.
Qed.

(** ** Lists and records *)

Lemma withQueue_same (l : Ledger) : withQueue l (queue l) = l.
Proof. destruct l; reflexivity. Qed.

Lemma filter_twice {A : Type} (f : A -> bool) (l : list A) :
  filter f (filter f l) = filter f l.
Proof.
  induction l as [|x l IH]; simpl; [reflexivity|].
  destruct (f x) eqn:Hx; simpl; [rewrite Hx, IH|]; auto.
Qed.

Lemma filter_all {A : Type} (f : A -> bool) (l : list A) :
  (forall x, In x l -> f x = true) -> filter f l = l.
Proof.
  induction l as [|x l IH]; simpl; intros H; [reflexivity|].
  rewrite (H x) by auto. f_equal; auto.
Qed.

(** ** Running the handlers *)

Section HandlerFacts.

Context {E : Env}.

Lemma getDoctorQueue_run (req : Request) (k : QueueKey) (w : World) :
  Names (get "doctorId" (params req)) req k ->
  ledgerRuns (QueueFindMany (keyWhere k None None) true IncludeTicket) = true ->
  getDoctorQueue req w
  = (Returned (mkResponse 200
       (Queues (map (joinTicket (ledger w))
                    (sortByPosition (entriesOf k (queue (ledger w))))))),
     {| ledger := ledger w;
        trace := trace w ++ [QueueFindMany (keyWhere k None None) true IncludeTicket] |}).
Proof.
  intros H Hruns. use_names H.
  change (mkWhere _ _ _ _ _) with (keyWhere k None None).
  rewrite Hruns. unfold selectRows, entriesOf.
  rewrite (filter_ext _ _ (matchesWhere_queue k)). reflexivity.
Qed.

Lemma getPatientQueuePosition_run (req : Request) (k : QueueKey) (w : World) :
  Names (get "doctorId" (query req)) req k ->
  ledgerRuns (QueueFindMany (keyWhere k (Some false) None) true SelectPosition) = true ->
  getPatientQueuePosition req w
  = (Returned (mkResponse 200
       (Position (hd_error (map position
          (sortByPosition
             (filter (fun e => negb (pending e)) (entriesOf k (queue (ledger w))))))))),
     {| ledger := ledger w;
        trace := trace w
                 ++ [QueueFindMany (keyWhere k (Some false) None) true SelectPosition] |}).
Proof.
  intros H Hruns. use_names H.
  change (mkWhere _ _ _ _ _) with (keyWhere k (Some false) None).
  rewrite Hruns. unfold selectRows, entriesOf.
  replace (filter (matchesWhere (keyWhere k (Some false) None)) (queue (ledger w)))
    with (filter (fun e => negb (pending e))
            (filter (fun e => QueueKey_eqb (key e) k) (queue (ledger w)))).
  - reflexivity.
  - induction (queue (ledger w)) as [|e q IH]; simpl; [reflexivity|].
    rewrite matchesWhere_keyWhere, andb_true_r, <- IH.
    destruct (QueueKey_eqb (key e) k); simpl; [|reflexivity].
    destruct (pending e); reflexivity.
Qed.

Lemma deleteQueueEntry_run (req : Request) (k : QueueKey) (p : Z) (w : World) :
  Names (get "doctorId" (query req)) req k ->
  AtPosition req p ->
  ledgerRuns (QueueDeleteMany (keyWhere k None (Some p))) = true ->
  deleteQueueEntry req w
  = (Returned (mkResponse 200 (Message "Queue deleted successfully")),
     {| ledger := withQueue (ledger w)
                    (filter (fun e => negb (atSlot k p e)) (queue (ledger w)));
        trace := trace w ++ [QueueDeleteMany (keyWhere k None (Some p))] |}).
Proof.
  intros H Hp Hruns. unfold AtPosition in Hp. use_names H. rewrite !Hp.
  change (mkWhere _ _ _ _ _) with (keyWhere k None (Some p)).
  rewrite Hruns.
  rewrite (filter_ext (fun e => negb (matchesWhere (keyWhere k None (Some p)) e))
                      (fun e => negb (atSlot k p e)))
    by (intros e; rewrite matchesWhere_slot; reflexivity).
  reflexivity.
Qed.

(** What markQueueEntryPending does for a request that names a queue
    whose hospital identifier is a number: [Number] leaves the number as
    it is, and the rows at the slot are the ones updated. *)
Lemma markQueueEntryPending_run_numeric (req : Request) (k : QueueKey) (h p : Z)
      (w : World) :
  Names (get "doctorId" (query req)) req k ->
  hospitalId k = IdNum h ->
  AtPosition req p ->
  ledgerRuns (QueueUpdateMany (keyWhere k None (Some p)) true) = true ->
  markQueueEntryPending req w
  = (Returned (mkResponse 200 (Message "Queue entry marked as pending successfully")),
     {| ledger := withQueue (ledger w)
                    (map (fun e => if atSlot k p e then setPending true e else e)
                         (queue (ledger w)));
        trace := trace w ++ [QueueUpdateMany (keyWhere k None (Some p)) true] |}).
Proof.
  intros H Hh Hp Hruns. unfold AtPosition in Hp. use_names H. rewrite !Hp, Hh. simpl.
  replace (mkWhere _ _ _ _ _) with (keyWhere k None (Some p))
    by (unfold keyWhere; rewrite Hh; reflexivity).
  rewrite Hruns.
  rewrite (map_ext (fun e => if matchesWhere (keyWhere k None (Some p)) e
                             then setPending true e else e)
                   (fun e => if atSlot k p e then setPending true e else e))
    by (intros e; rewrite matchesWhere_slot; reflexivity).
  reflexivity.
Qed.

(** No row of a hospital with a string identifier matches it. *)
Lemma pendingWhere_numeric (req : Request) (iso : Z) (e : QueueEntry) :
  matchesWhere (pendingWhere req iso) e = true ->
  exists h, hospitalId (key e) = IdNum h.
Proof.
  unfold matchesWhere, pendingWhere; simpl.
  rewrite !andb_true_iff. intros [[[[_ _] Hh] _] _].
  destruct (hospitalId (key e)) as [h|s]; [eauto | discriminate].
Qed.

(** All that markQueueEntryPending can do to the world. *)
Lemma markQueueEntryPending_cases (req : Request) (w : World) :
  markQueueEntryPending req w
  = (Returned (mkResponse 400 (Message "Invalid request")), w)
  \/ markQueueEntryPending req w
     = (Returned (mkResponse 500 (Message "Can't update Queue status data")), w)
  \/ exists iso,
      newDate (get "appointmentDate" (body req)) = Some iso
      /\ ((ledgerRuns (QueueUpdateMany (pendingWhere req iso) true) = false
           /\ markQueueEntryPending req w
              = (Returned (mkResponse 500 (Message "Can't update Queue status data")),
                 {| ledger := ledger w;
                    trace := trace w ++ [QueueUpdateMany (pendingWhere req iso) true] |}))
          \/ (ledgerRuns (QueueUpdateMany (pendingWhere req iso) true) = true
              /\ markQueueEntryPending req w
                 = (Returned (mkResponse 200
                               (Message "Queue entry marked as pending successfully")),
                    {| ledger := withQueue (ledger w)
                         (map (fun e => if matchesWhere (pendingWhere req iso) e
                                        then setPending true e else e)
                              (queue (ledger w)));
                       trace := trace w
                                ++ [QueueUpdateMany (pendingWhere req iso) true] |}))).
Proof.
  unfold_handlers.
  destruct (queueRequest (body req)); simpl; [|left; reflexivity].
  destruct (newDate (get "appointmentDate" (body req))) as [iso|]; simpl;
    [|right; left; reflexivity].
  right; right; exists iso; split; [reflexivity|].
  fold (pendingWhere req iso).
  destruct (ledgerRuns (QueueUpdateMany (pendingWhere req iso) true));
    [right | left]; split; reflexivity.
Qed.

(** Every handler leaves the queue table as it was, or with rows removed,
    or with rows called forward; never anything else. *)
Lemma after_evolves (o : Op) (req : Request) (w : World) :
  Evolves (queue (ledger w)) (queue (ledger (after o req w))).
Proof.
  destruct o; unfold_handlers; split_cases;
    auto using Evolves_refl, Evolves_filter, Evolves_update.
Qed.

Lemma serve_evolves (rs : list (Op * Request)) (w : World) :
  Evolves (queue (ledger w)) (queue (ledger (serve rs w))).
Proof.
  revert w; induction rs as [|[o req] rs IH]; intros w; simpl.
  - apply Evolves_refl.
  - eapply Evolves_trans; [apply after_evolves | apply IH].
Qed.

(** The three reads leave the whole Ledger as it was. *)
Lemma reads_keep_ledger (o : Op) (req : Request) (w : World) :
  o = GetDoctorQueue \/ o = GetPatientQueuePosition \/ o = GetQueueTotal ->
  ledger (after o req w) = ledger w.
Proof.
  intros [->|[->| ->]]; unfold_handlers; split_cases; reflexivity.
Qed.


End HandlerFacts.

(** ** The properties of the specification, over any environment *)

Section Claims.

Context {E : Env}.

Lemma matchesWhere_setPending (wh : QueueWhere) (b : bool) (e : QueueEntry) :
  w_pending wh = None -> matchesWhere wh (setPending b e) = matchesWhere wh e.
Proof. intros H; unfold matchesWhere; rewrite H; reflexivity. Qed.


(** C3: for a request that names a queue, getDoctorQueue answers with
    exactly the entries of that queue, in ascending order of position,
    each with the ticket it links to: a ticket of the tickets table
    whose id is the entry's ticket reference, and none only when the
    table has no such ticket. The Ledger is left as it was. *)
Theorem getDoctorQueue_lists_the_queue (req : Request) (k : QueueKey) (w : World) :
  Names (get "doctorId" (params req)) req k ->
  ledgerRuns (QueueFindMany (keyWhere k None None) true IncludeTicket) = true ->
  exists qs : list QueueWithTicket,
    fst (getDoctorQueue req w) = Returned (mkResponse 200 (Queues qs))
    /\ Permutation (map entry qs) (entriesOf k (queue (ledger w)))
    /\ Ascending (map entry qs)
    /\ Forall (fun q =>
                 match ticket q with
                 | Some t => In t (tickets (ledger w))
                             /\ ticketId t = ticketRef (entry q)
                 | None => forall t, In t (tickets (ledger w)) ->
                                     ticketId t <> ticketRef (entry q)
                 end) qs
    /\ ledger (snd (getDoctorQueue req w)) = ledger w.
Proof.
  intros H Hruns.
  rewrite (getDoctorQueue_run req k w H Hruns); simpl.
  eexists; split; [reflexivity|].
  rewrite map_map; simpl; rewrite map_id.
  repeat split.
  - apply sortByPosition_perm.
  - apply sortByPosition_ascending.
  - apply Forall_forall; intros q Hq.
    apply in_map_iff in Hq; destruct Hq as [e [<- _]]; simpl.
    unfold findTicket.
    destruct (find (fun t => Z.eqb (ticketId t) (ticketRef e)) (tickets (ledger w)))
      as [t|] eqn:Hfind.
    + apply find_some in Hfind. destruct Hfind as [Hin Hid].
      apply Z.eqb_eq in Hid. auto.
    + intros t Hin Hid.
      pose proof (find_none _ _ Hfind t Hin) as Hno. simpl in Hno.
      rewrite Hid, Z.eqb_refl in Hno. discriminate.
Qed.

(** C2: for a request that names a queue, getPatientQueuePosition
    answers with the least position among the entries of that queue
    that are not pending, and with nothing when there is none. *)
Theorem getPatientQueuePosition_least_waiting (req : Request) (k : QueueKey) (w : World) :
  Names (get "doctorId" (query req)) req k ->
  ledgerRuns (QueueFindMany (keyWhere k (Some false) None) true SelectPosition) = true ->
  exists r : option Z,
    fst (getPatientQueuePosition req w) = Returned (mkResponse 200 (Position r))
    /\ match r with
       | Some m =>
           (exists e, In e (queue (ledger w))
                      /\ key e = k /\ pending e = false /\ position e = m)
           /\ (forall e, In e (queue (ledger w)) ->
                         key e = k -> pending e = false -> m <= position e)
       | None =>
           forall e, In e (queue (ledger w)) -> key e = k -> pending e = true
       end.
Proof.
  intros H Hruns.
  rewrite (getPatientQueuePosition_run req k w H Hruns); simpl.
  eexists; split; [reflexivity|].
  set (waiting := filter (fun e => negb (pending e)) (entriesOf k (queue (ledger w)))).
  assert (Hin : forall e, In e waiting <->
                          In e (queue (ledger w)) /\ key e = k /\ pending e = false).
  { intros e; unfold waiting, entriesOf. rewrite !filter_In, QueueKey_eqb_eq.
    rewrite negb_true_iff. tauto. }
  pose proof (sortByPosition_ascending waiting) as Hasc.
  pose proof (sortByPosition_In waiting) as Hsort.
  destruct (sortByPosition waiting) as [|e0 rest] eqn:Hs; simpl.
  - intros e He Hk.
    destruct (pending e) eqn:Hp; [reflexivity|].
    exfalso. apply (proj2 (Hsort e)). apply Hin; auto.
  - split.
    + exists e0.
      assert (H0 : In e0 waiting) by (apply Hsort; simpl; auto).
      apply Hin in H0. tauto.
    + intros e He Hk Hp.
      apply (ascending_head_least e0 rest Hasc).
      apply Hsort, Hin; auto.
Qed.

(** C4: uniqueness of position is kept by every operation: if no two
    entries of the queue table share a queue and a position, none do
    after any handler has answered any request. *)
Theorem operations_keep_positions_unique (o : Op) (req : Request) (w : World) :
  UniquePositions (queue (ledger w)) ->
  UniquePositions (queue (ledger (after o req w))).
Proof.
  apply Evolves_unique, after_evolves.
Qed.

(** What a successful markQueueEntryPending has done: the date parsed,
    the Ledger ran the update, and the queue table is the one it found
    with the rows the update addressed called forward. *)
Lemma markQueueEntryPending_success (req : Request) (resp : Response) (w0 w : World) :
  markQueueEntryPending req w0 = (Returned resp, w) ->
  status resp = 200 ->
  exists iso,
    newDate (get "appointmentDate" (body req)) = Some iso
    /\ ledgerRuns (QueueUpdateMany (pendingWhere req iso) true) = true
    /\ queue (ledger w)
       = map (fun e => if matchesWhere (pendingWhere req iso) e
                       then setPending true e else e)
             (queue (ledger w0)).
Proof.
  intros Hrun Hok.
  destruct (markQueueEntryPending_cases req w0)
    as [Hc|[Hc|[iso [Hd [[_ Hc]|[Hruns Hc]]]]]];
    rewrite Hc in Hrun; inversion Hrun; subst; try discriminate.
  exists iso. repeat split; assumption.
Qed.

(** The rows the update of a successful markQueueEntryPending addressed
    are pending after any further requests. *)
Lemma addressed_rows_stay_pending
      (rs : list (Op * Request)) (req : Request) (iso : Z) (resp : Response)
      (w0 w : World) :
  markQueueEntryPending req w0 = (Returned resp, w) ->
  status resp = 200 ->
  newDate (get "appointmentDate" (body req)) = Some iso ->
  forall e, In e (queue (ledger (serve rs w))) ->
            matchesWhere (pendingWhere req iso) e = true -> pending e = true.
Proof.
  intros Hrun Hok Hdate.
  destruct (markQueueEntryPending_success req resp w0 w Hrun Hok)
    as [iso' [Hd [_ Hq]]].
  rewrite Hd in Hdate; inversion Hdate; subst iso'.
  apply (Evolves_pending (queue (ledger w))).
  - intros e; apply matchesWhere_setPending; reflexivity.
  - apply serve_evolves.
  - rewrite Hq. intros e He Hm.
    apply in_map_iff in He. destruct He as [x [Hx _]].
    destruct (matchesWhere (pendingWhere req iso) x) eqn:Hmx.
    + subst e; reflexivity.
    + subst e; congruence.
Qed.


(** C6: deleteQueueEntry is idempotent. For a request that names a queue
    and a position, a first and a second call both answer with success,
    the Ledger after the second call is the Ledger after the first, and
    a call for a position no entry of the queue has leaves the Ledger as
    it was. *)
Theorem deleteQueueEntry_idempotent (req : Request) (k : QueueKey) (p : Z) (w : World) :
  Names (get "doctorId" (query req)) req k ->
  AtPosition req p ->
  ledgerRuns (QueueDeleteMany (keyWhere k None (Some p))) = true ->
  fst (deleteQueueEntry req w)
  = Returned (mkResponse 200 (Message "Queue deleted successfully"))
  /\ fst (deleteQueueEntry req (after DeleteQueueEntry req w))
     = Returned (mkResponse 200 (Message "Queue deleted successfully"))
  /\ ledger (after DeleteQueueEntry req (after DeleteQueueEntry req w))
     = ledger (after DeleteQueueEntry req w)
  /\ ((forall e, In e (queue (ledger w)) -> atSlot k p e = false) ->
      ledger (after DeleteQueueEntry req w) = ledger w).
Proof.
  intros H Hp Hruns. unfold after; simpl handler.
  rewrite !(deleteQueueEntry_run req k p _ H Hp Hruns); simpl.
  repeat split.
  - unfold withQueue; simpl. rewrite filter_twice. reflexivity.
  - intros Hnone. rewrite filter_all.
    + apply withQueue_same.
    + intros e He. rewrite (Hnone e He). reflexivity.
Qed.

(** C7: deleteQueueEntry removes the entries at the named position of
    the named queue and nothing else: the rows that stay are the rows
    that were there, as they were and in their order (no position is
    renumbered, no pending flag touched, no other queue touched), and
    the other tables are as they were. *)
Theorem deleteQueueEntry_frame (req : Request) (k : QueueKey) (p : Z) (w : World) :
  Names (get "doctorId" (query req)) req k ->
  AtPosition req p ->
  ledgerRuns (QueueDeleteMany (keyWhere k None (Some p))) = true ->
  queue (ledger (after DeleteQueueEntry req w))
  = filter (fun e => negb (atSlot k p e)) (queue (ledger w))
  /\ tickets (ledger (after DeleteQueueEntry req w)) = tickets (ledger w)
  /\ futureReferences (ledger (after DeleteQueueEntry req w))
     = futureReferences (ledger w)
  /\ (forall e, In e (queue (ledger (after DeleteQueueEntry req w))) <->
                In e (queue (ledger w)) /\ ~ (key e = k /\ position e = p)).
Proof.
  intros H Hp Hruns. unfold after; simpl handler.
  rewrite (deleteQueueEntry_run req k p _ H Hp Hruns); simpl.
  repeat split; try tauto.
  - apply filter_In in H0; tauto.
  - apply filter_In in H0. destruct H0 as [_ Hn].
    intros [Hk Hpos]. apply negb_true_iff in Hn.
    unfold atSlot in Hn.
    rewrite (proj2 (QueueKey_eqb_eq _ _) Hk), Hpos, Z.eqb_refl in Hn.
    discriminate.
  - intros [Hin Hn]. apply filter_In; split; [exact Hin|].
    apply negb_true_iff. unfold atSlot.
    destruct (QueueKey_eqb (key e) k) eqn:Hk; [|reflexivity].
    destruct (Z.eqb (position e) p) eqn:Hpos; [|reflexivity].
    exfalso; apply Hn. split; [apply QueueKey_eqb_eq, Hk | apply Z.eqb_eq, Hpos].
Qed.

(** C8, as amended: each of the five queue handlers answers a request
    whose body the schema rejects with 400 `Invalid request`, with no
    call on the Ledger and the world as it was. Nothing but the body is
    validated: a request whose body the schema accepts is never
    answered with 400, and what the URL carries as doctorId and position
    goes through [Number] into the `where` object of the call, whatever
    it is. *)
Theorem only_the_body_is_validated (o : Op) (req : Request) (w : World) :
  o <> CreateFutureAppointment ->
  if queueRequest (body req)
  then (exists resp, fst (handler o req w) = Returned resp /\ status resp <> 400)
       /\ match newDate (get "appointmentDate" (body req)) with
          | Some iso =>
              exists c wh,
                trace (after o req w) = (trace w ++ [c])%list
                /\ callWhere c = Some wh
                /\ w_doctorId wh = Number (urlDoctor o req)
                /\ w_position wh
                   = if readsPosition o
                     then Some (Number (get "position" (query req)))
                     else None
          | None => trace (after o req w) = trace w
          end
  else handler o req w = (Returned (mkResponse 400 (Message "Invalid request")), w).
Proof.
  intros Ho.
  destruct o; try congruence; unfold_handlers;
    (destruct (queueRequest (body req)); simpl; [|reflexivity]);
    (destruct (newDate (get "appointmentDate" (body req))) as [iso|]; simpl;
     [|split; [eexists; split; [reflexivity | simpl; lia] | reflexivity]]);
    (destruct (ledgerRuns _); simpl;
     (split; [eexists; split; [reflexivity | simpl; lia]
             | do 2 eexists; repeat split; reflexivity])).
Qed.

(** C10: createFutureAppointment checks nothing. A date that does not
    parse gives 500 `Server error` with no call on the Ledger; otherwise
    doctorId, patientId and notes go to the Ledger's create as the body
    carried them, and the answer is 201 with the record, or 500 `Server
    error` when the Ledger throws. The answer is never 400. *)
Theorem createFutureAppointment_checks_nothing (req : Request) (w : World) :
  (exists resp, fst (createFutureAppointment req w) = Returned resp
                /\ status resp <> 400)
  /\ match newDate (get "nextdate" (body req)) with
     | None =>
         createFutureAppointment req w
         = (Returned (mkResponse 500 (Message "Server error")), w)
     | Some iso =>
         trace (snd (createFutureAppointment req w))
         = (trace w ++ [FutureReferenceCreate (futureData req iso)])%list
         /\ fst (createFutureAppointment req w)
            = Returned (if ledgerRuns (FutureReferenceCreate (futureData req iso))
                        then mkResponse 201 (Created (futureData req iso))
                        else mkResponse 500 (Message "Server error"))
     end.
Proof.
  unfold_handlers. unfold futureData.
  destruct (newDate (get "nextdate" (body req))) as [iso|]; simpl.
  - destruct (ledgerRuns (FutureReferenceCreate _)); simpl;
      (split; [eexists; split; [reflexivity|simpl; lia] | split; reflexivity]).
  - split; [eexists; split; [reflexivity|simpl; lia] | reflexivity].
Qed.

End Claims.

(** ** markQueueEntryPending and the hospital identifier *)

Section PendingAndHospital.

Context {E : Env}.

(** The update of markQueueEntryPending never reaches a queue whose
    hospital identifier is a string: the handler names the hospital by
    [Number(hospitalId)], the other handlers by [hospitalId]. *)
Lemma markQueueEntryPending_skips_string_hospitals
      (req : Request) (w : World) (k : QueueKey) (s : string) :
  hospitalId k = IdStr s ->
  entriesOf k (queue (ledger (after MarkQueueEntryPending req w)))
  = entriesOf k (queue (ledger w)).
Proof.
  intros Hk. unfold after; simpl handler.
  destruct (markQueueEntryPending_cases req w)
    as [Hc|[Hc|[iso [_ [[_ Hc]|[_ Hc]]]]]]; rewrite Hc; simpl; try reflexivity.
  clear Hc. unfold entriesOf.
  induction (queue (ledger w)) as [|e q IH]; simpl; [reflexivity|].
  destruct (matchesWhere (pendingWhere req iso) e) eqn:Hm.
  - destruct (pendingWhere_numeric req iso e Hm) as [h Hh].
    assert (Hne : QueueKey_eqb (key e) k = false).
    { destruct (QueueKey_eqb (key e) k) eqn:Heq; [|reflexivity].
      apply QueueKey_eqb_eq in Heq. rewrite Heq, Hk in Hh. discriminate. }
    simpl. rewrite Hne. exact IH.
  - destruct (QueueKey_eqb (key e) k); [f_equal|]; exact IH.
Qed.

(** Two calls of deleteQueueEntry in one environment (the call has the
    same outcome both times) leave the Ledger as one call does. *)
Lemma deleteQueueEntry_twice (req : Request) (w : World) :
  ledger (after DeleteQueueEntry req (after DeleteQueueEntry req w))
  = ledger (after DeleteQueueEntry req w).
Proof.
  unfold_handlers.
  destruct (queueRequest (body req)); simpl; [|reflexivity].
  destruct (newDate (get "appointmentDate" (body req))) as [iso|]; simpl;
    [|reflexivity].
  destruct (ledgerRuns (QueueDeleteMany _)); simpl; [|reflexivity].
  unfold withQueue; simpl. rewrite filter_twice. reflexivity.
Qed.

(** A request whose body the schema accepts is never answered with 400,
    whatever the URL carries as doctorId and position. *)
Lemma accepted_body_never_400 (o : Op) (req : Request) (w : World) :
  queueRequest (body req) = true ->
  exists resp, fst (handler o req w) = Returned resp /\ status resp <> 400.
Proof.
  intros Hok.
  destruct o;
    unfold handler, getDoctorQueue, getPatientQueuePosition, getQueueTotal,
      deleteQueueEntry, createFutureAppointment, markQueueEntryPending,
      tryCatch, bind, toISOString, queue_findMany_include, queue_findMany_select,
      queue_deleteMany, queue_updateMany, futureReference_create, prisma, ret, throw;
    try rewrite Hok; simpl;
    repeat match goal with
           | |- context [match ?x with Some _ => _ | None => _ end] => destruct x eqn:?
           | |- context [if ?c then _ else _] => destruct c eqn:?
           end; simpl; eexists; (split; [reflexivity | simpl; lia]).
Qed.

End PendingAndHospital.

(** ** The broadcaster *)

(** C9: on `sendTicketToUser` with payload [d], every connected socket
    is delivered exactly two more events, `fetch-ticket` with no payload
    and then `UserTicket` with [d]; the connected sockets are the same. *)
Theorem sendTicketToUser_reaches_every_socket
        (Data : Type) (d : Data) (io : Socket.Server Data) :
  Forall2
    (fun before after =>
       Socket.socketId Data after = Socket.socketId Data before
       /\ Socket.received Data after
          = (Socket.received Data before
             ++ [Socket.mkEvent "fetch-ticket" []; Socket.mkEvent "UserTicket" [d]])%list)
    io (Socket.on Data (Socket.sendTicketToUser Data d) io).
Proof.
  induction io as [|c io IH]; simpl.
  - constructor.
  - constructor; [|exact IH].
    simpl. rewrite <- app_assoc. split; reflexivity.
Qed.

(** ** The properties on the sample queue *)

Lemma sample_names_params (p : string) :
  @Names Sample.env (get "doctorId" (params (Sample.request (Str "H1") p)))
         (Sample.request (Str "H1") p) Sample.h1.
Proof. split; reflexivity. Defined.

Lemma sample_names_query (p : string) :
  @Names Sample.env (get "doctorId" (query (Sample.request (Str "H1") p)))
         (Sample.request (Str "H1") p) Sample.h1.
Proof. split; reflexivity. Defined.

Lemma sample_store_unique : UniquePositions (queue Sample.store).
Proof.
  unfold UniquePositions; simpl.
  repeat (constructor; [simpl; intuition discriminate|]).
  constructor.
Defined.

(** C1 at a queue whose hospital is "H1": getDoctorQueue returns the
    entry at position 0 of the queue first, not pending; for the same
    queue and position, markQueueEntryPending asks the Ledger for
    hospital [Number("H1")], which is NaN, and the Ledger stays as it
    was, the entry not pending. *)
Theorem markQueueEntryPending_misses_string_hospital :
  fst (@getDoctorQueue Sample.env (Sample.request (Str "H1") "0") Sample.world)
  = Returned (mkResponse 200
      (Queues (map (joinTicket Sample.store)
                   [Sample.entryAt Sample.h1 0 101 false;
                    Sample.entryAt Sample.h1 1 102 false;
                    Sample.entryAt Sample.h1 2 103 false])))
  /\ trace (snd (@markQueueEntryPending Sample.env
                   (Sample.request (Str "H1") "0") Sample.world))
     = [QueueUpdateMany
          {| w_doctorId := Int 5;
             w_appointmentDate := Sample.day;
             w_hospitalId := Num NaN;
             w_pending := None;
             w_position := Some (Int 0) |} true]
  /\ ledger (snd (@markQueueEntryPending Sample.env
                    (Sample.request (Str "H1") "0") Sample.world))
     = Sample.store.
Proof. repeat split; vm_compute; reflexivity. Qed.

Lemma getPatientQueuePosition_least_waiting_witness :
  @Names Sample.env (Str "5") (Sample.request (Str "H1") "0") Sample.h1
  /\ exists r : option Z,
      fst (@getPatientQueuePosition Sample.env (Sample.request (Str "H1") "0") Sample.world)
      = Returned (mkResponse 200 (Position r))
      /\ match r with
         | Some m =>
             (exists e, In e (queue Sample.store)
                        /\ key e = Sample.h1 /\ pending e = false /\ position e = m)
             /\ (forall e, In e (queue Sample.store) ->
                           key e = Sample.h1 -> pending e = false -> m <= position e)
         | None =>
             forall e, In e (queue Sample.store) -> key e = Sample.h1 -> pending e = true
         end.
Proof.
  split; [exact (sample_names_query "0")|].
  apply (@getPatientQueuePosition_least_waiting Sample.env
           (Sample.request (Str "H1") "0") Sample.h1 Sample.world).
  - exact (sample_names_query "0").
  - reflexivity.
Defined.

Lemma getDoctorQueue_lists_the_queue_witness :
  @Names Sample.env (Str "5") (Sample.request (Str "H1") "0") Sample.h1
  /\ exists qs : list QueueWithTicket,
      fst (@getDoctorQueue Sample.env (Sample.request (Str "H1") "0") Sample.world)
      = Returned (mkResponse 200 (Queues qs))
      /\ Permutation (map entry qs) (entriesOf Sample.h1 (queue Sample.store))
      /\ Ascending (map entry qs)
      /\ Forall (fun q =>
                   match ticket q with
                   | Some t => In t (tickets Sample.store)
                               /\ ticketId t = ticketRef (entry q)
                   | None => forall t, In t (tickets Sample.store) ->
                                       ticketId t <> ticketRef (entry q)
                   end) qs
      /\ ledger (snd (@getDoctorQueue Sample.env
                        (Sample.request (Str "H1") "0") Sample.world))
         = Sample.store.
Proof.
  split; [exact (sample_names_params "0")|].
  apply (@getDoctorQueue_lists_the_queue Sample.env
           (Sample.request (Str "H1") "0") Sample.h1 Sample.world).
  - exact (sample_names_params "0").
  - reflexivity.
Defined.

Lemma operations_keep_positions_unique_witness :
  UniquePositions (queue Sample.store)
  /\ UniquePositions
       (queue (ledger (@after Sample.env DeleteQueueEntry
                         (Sample.request (Str "H1") "1") Sample.world))).
Proof.
  split; [exact sample_store_unique|].
  apply (@operations_keep_positions_unique Sample.env DeleteQueueEntry
           (Sample.request (Str "H1") "1") Sample.world).
  exact sample_store_unique.
Defined.



Lemma deleteQueueEntry_idempotent_witness :
  @Names Sample.env (Str "5") (Sample.request (Str "H1") "1") Sample.h1
  /\ @AtPosition Sample.env (Sample.request (Str "H1") "1") 1
  /\ ledger (@after Sample.env DeleteQueueEntry (Sample.request (Str "H1") "1")
               (@after Sample.env DeleteQueueEntry (Sample.request (Str "H1") "1")
                  Sample.world))
     = ledger (@after Sample.env DeleteQueueEntry (Sample.request (Str "H1") "1")
                 Sample.world).
Proof.
  split; [exact (sample_names_query "1")|].
  split; [reflexivity|].
  exact (proj1 (proj2 (proj2 (@deleteQueueEntry_idempotent Sample.env
                  (Sample.request (Str "H1") "1") Sample.h1 1 Sample.world
                  (sample_names_query "1") eq_refl eq_refl)))).
Defined.

Lemma deleteQueueEntry_frame_witness :
  @Names Sample.env (Str "5") (Sample.request (Str "H1") "1") Sample.h1
  /\ @AtPosition Sample.env (Sample.request (Str "H1") "1") 1
  /\ queue (ledger (@after Sample.env DeleteQueueEntry
                      (Sample.request (Str "H1") "1") Sample.world))
     = filter (fun e => negb (atSlot Sample.h1 1 e)) (queue Sample.store).
Proof.
  split; [exact (sample_names_query "1")|].
  split; [reflexivity|].
  exact (proj1 (@deleteQueueEntry_frame Sample.env
                  (Sample.request (Str "H1") "1") Sample.h1 1 Sample.world
                  (sample_names_query "1") eq_refl eq_refl)).
Defined.

(** C8 as stated fails: a request for deleteQueueEntry with no doctorId
    (a scope field of the key) and a body the schema accepts is not
    turned away with the validation error before the Ledger: the Prisma
    client is called with doctor NaN, throws, and the answer is the 500
    of the catch, not the 400 of the validation. *)
Lemma missing_doctorId_reaches_ledger :
  get "doctorId" (query Sample.noDoctor) = Undefined
  /\ @deleteQueueEntry Sample.env Sample.noDoctor Sample.world
     = (Returned (mkResponse 500 (Message "Can't delete Queue status data")),
        {| ledger := Sample.store;
           trace := [QueueDeleteMany
                       {| w_doctorId := NaN;
                          w_appointmentDate := Sample.day;
                          w_hospitalId := Str "H1";
                          w_pending := None;
                          w_position := Some (Int 1) |}] |})
  /\ @deleteQueueEntry Sample.env Sample.noDoctor Sample.world
     <> (Returned (mkResponse 400 (Message "Invalid request")), Sample.world).
Proof.
  split; [reflexivity|].
  split; [vm_compute; reflexivity|].
  vm_compute. discriminate.
Qed.

Lemma only_the_body_is_validated_witness :
  MarkQueueEntryPending <> CreateFutureAppointment
  /\ @handler Sample.env MarkQueueEntryPending
       (mkRequest [] [("doctorId", Str "5"); ("position", Str "0")]
                  [("hospitalId", Str "H1")])
       Sample.world
     = (Returned (mkResponse 400 (Message "Invalid request")), Sample.world)
  /\ exists c wh,
      trace (@after Sample.env DeleteQueueEntry Sample.noDoctor Sample.world) = [c]
      /\ callWhere c = Some wh
      /\ w_doctorId wh = NaN
      /\ w_position wh = Some (Int 1).
Proof.
  split; [discriminate|].
  split.
  - exact (@only_the_body_is_validated Sample.env MarkQueueEntryPending
             (mkRequest [] [("doctorId", Str "5"); ("position", Str "0")]
                        [("hospitalId", Str "H1")])
             Sample.world ltac:(discriminate)).
  - exact (proj2 (@only_the_body_is_validated Sample.env DeleteQueueEntry
                    Sample.noDoctor Sample.world ltac:(discriminate))).
Defined.

(** * Further properties of the handlers *)

(** ** Ordering, filtering and updating rows *)

Lemma ascending_tail (x : QueueEntry) (l : list QueueEntry) :
  Ascending (x :: l) -> Ascending l.
Proof. intros H; inversion H; assumption. Qed.

Lemma insertByPosition_least (e : QueueEntry) (l : list QueueEntry) :
  (forall y, In y l -> position e <= position y) ->
  insertByPosition e l = e :: l.
Proof.
  destruct l as [|x l]; simpl; intros H; [reflexivity|].
  rewrite (proj2 (Z.leb_le _ _)); [reflexivity|]. apply H; auto.
Qed.

(** Filtering an ascending list after an insertion is inserting into the
    filtered list. *)
Lemma insertByPosition_filter (f : QueueEntry -> bool) (e : QueueEntry)
      (l : list QueueEntry) :
  Ascending l ->
  filter f (insertByPosition e l)
  = if f e then insertByPosition e (filter f l) else filter f l.
Proof.
  induction l as [|x l IH]; intros Hasc; simpl.
  - destruct (f e); reflexivity.
  - destruct (Z.leb (position e) (position x)) eqn:Hle; simpl.
    + destruct (f e); [|reflexivity].
      apply Z.leb_le in Hle.
      rewrite insertByPosition_least; [reflexivity|].
      intros y Hy.
      assert (Hin : In y (x :: l)).
      { change (In y (filter f (x :: l))) in Hy. apply filter_In in Hy. tauto. }
      pose proof (ascending_head_least x l Hasc y Hin). lia.
    + rewrite (IH (ascending_tail _ _ Hasc)).
      destruct (f x), (f e); simpl; try reflexivity.
      rewrite Hle. reflexivity.
Qed.

Lemma sortByPosition_filter (f : QueueEntry -> bool) (l : list QueueEntry) :
  filter f (sortByPosition l) = sortByPosition (filter f l).
Proof.
  induction l as [|x l IH]; simpl; [reflexivity|].
  rewrite insertByPosition_filter by apply sortByPosition_ascending.
  rewrite IH. destruct (f x); reflexivity.
Qed.

(** An update that keeps positions commutes with the ordering. *)
Lemma sortByPosition_map (g : QueueEntry -> QueueEntry) (l : list QueueEntry) :
  (forall e, position (g e) = position e) ->
  map g (sortByPosition l) = sortByPosition (map g l).
Proof.
  intros Hg.
  assert (Hins : forall e l', map g (insertByPosition e l')
                              = insertByPosition (g e) (map g l')).
  { intros e l'; induction l' as [|x l' IH]; simpl; [reflexivity|].
    rewrite !Hg. destruct (Z.leb (position e) (position x)); simpl;
      [reflexivity | rewrite IH; reflexivity]. }
  induction l as [|x l IH]; simpl; [reflexivity|].
  rewrite Hins, IH. reflexivity.
Qed.

Lemma filter_map_commute {A B : Type} (g : A -> B) (f : B -> bool) (l : list A) :
  filter f (map g l) = map g (filter (fun a => f (g a)) l).
Proof.
  induction l as [|x l IH]; simpl; [reflexivity|].
  rewrite IH. destruct (f (g x)); reflexivity.
Qed.

Lemma filter_filter_commute {A : Type} (f g : A -> bool) (l : list A) :
  filter f (filter g l) = filter g (filter f l).
Proof.
  induction l as [|x l IH]; simpl; [reflexivity|].
  destruct (f x) eqn:Hf, (g x) eqn:Hg; simpl; rewrite ?Hf, ?Hg, IH; reflexivity.
Qed.

Lemma filter_none {A : Type} (f : A -> bool) (l : list A) :
  (forall x, In x l -> f x = false) -> filter f l = [].
Proof.
  induction l as [|x l IH]; simpl; intros H; [reflexivity|].
  rewrite (H x) by auto. auto.
Qed.

Lemma map_same {A : Type} (g : A -> A) (l : list A) :
  (forall x, In x l -> g x = x) -> map g l = l.
Proof.
  induction l as [|x l IH]; simpl; intros H; [reflexivity|].
  rewrite (H x) by auto. f_equal; auto.
Qed.

(** The first position of an ordered list of rows is a least one. *)
Lemma first_position_least (l : list QueueEntry) (m : Z) :
  hd_error (map position (sortByPosition l)) = Some m ->
  (exists e, In e l /\ position e = m) /\ forall e, In e l -> m <= position e.
Proof.
  pose proof (sortByPosition_ascending l) as Hasc.
  pose proof (sortByPosition_In l) as Hin.
  destruct (sortByPosition l) as [|e0 rest]; simpl; intros H; [discriminate|].
  inversion H; subst m. split.
  - exists e0; split; [apply Hin; simpl; auto | reflexivity].
  - intros e He. apply (ascending_head_least e0 rest Hasc). apply Hin, He.
Qed.

Lemma first_position_none (l : list QueueEntry) :
  hd_error (map position (sortByPosition l)) = None -> l = [].
Proof.
  pose proof (sortByPosition_perm l) as Hp.
  destruct (sortByPosition l); simpl; intros H; [|discriminate].
  apply Permutation_nil in Hp. exact Hp.
Qed.

(** Two rows of a table with unique positions that share a slot are
    one row, so removing a slot that is taken removes one row. *)
Lemma unique_slot_count (k : QueueKey) (p : Z) (l : list QueueEntry) :
  UniquePositions l ->
  (exists e, In e l /\ key e = k /\ position e = p) ->
  List.length (entriesOf k l)
  = S (List.length (entriesOf k (filter (fun e => negb (atSlot k p e)) l))).
Proof.
  unfold UniquePositions, entriesOf.
  induction l as [|x l IH]; intros Hu [e [He [Hk Hp]]]; [destruct He|].
  simpl in Hu. apply NoDup_cons_iff in Hu. destruct Hu as [Hnot Hrest].
  simpl. destruct (atSlot k p x) eqn:Hx; simpl.
  - unfold atSlot in Hx. apply andb_true_iff in Hx. destruct Hx as [Hxk Hxp].
    rewrite Hxk; simpl. f_equal.
    rewrite (filter_all (fun e0 => negb (atSlot k p e0)) l); [reflexivity|].
    intros y Hy. apply negb_true_iff.
    destruct (atSlot k p y) eqn:Hyat; [|reflexivity].
    exfalso. apply Hnot. apply in_map_iff. exists y. split; [|exact Hy].
    unfold atSlot in Hyat. apply andb_true_iff in Hyat. destruct Hyat as [Hyk Hyp].
    apply QueueKey_eqb_eq in Hyk, Hxk. apply Z.eqb_eq in Hyp, Hxp.
    unfold slot. congruence.
  - assert (Hin : In e l).
    { destruct He as [<-|He]; [|exact He].
      unfold atSlot in Hx.
      rewrite (proj2 (QueueKey_eqb_eq _ _) Hk), Hp, Z.eqb_refl in Hx. discriminate. }
    destruct (QueueKey_eqb (key x) k); simpl;
      rewrite (IH Hrest (ex_intro _ e (conj Hin (conj Hk Hp)))); reflexivity.
Qed.

(** ** Reads, and reads after writes *)

Section ReadsAndWrites.

Context {E : Env}.

Lemma getQueueTotal_run (req : Request) (k : QueueKey) (w : World) :
  Names (get "doctorId" (query req)) req k ->
  ledgerRuns (QueueFindMany (keyWhere k None None) false SelectPosition) = true ->
  getQueueTotal req w
  = (Returned (mkResponse 200 (Total (List.length (entriesOf k (queue (ledger w)))))),
     {| ledger := ledger w;
        trace := trace w ++ [QueueFindMany (keyWhere k None None) false SelectPosition] |}).
Proof.
  intros H Hruns. use_names H.
  change (mkWhere _ _ _ _ _) with (keyWhere k None None).
  rewrite Hruns. unfold selectRows, entriesOf.
  rewrite (filter_ext _ _ (matchesWhere_queue k)). rewrite length_map. reflexivity.
Qed.

Lemma joinTicket_tickets (l l' : Ledger) (e : QueueEntry) :
  tickets l' = tickets l -> joinTicket l' e = joinTicket l e.
Proof. intros H; unfold joinTicket, findTicket; rewrite H; reflexivity. Qed.

Lemma entriesOf_without_slot (k : QueueKey) (p : Z) (q : list QueueEntry) :
  entriesOf k (filter (fun e => negb (atSlot k p e)) q)
  = filter (fun e => negb (Z.eqb (position e) p)) (entriesOf k q).
Proof.
  unfold entriesOf.
  induction q as [|e q IH]; simpl; [reflexivity|].
  unfold atSlot at 1.
  destruct (QueueKey_eqb (key e) k) eqn:Hk; simpl.
  - destruct (Z.eqb (position e) p) eqn:Hp; simpl; rewrite ?Hk, ?Hp; simpl;
      rewrite IH; reflexivity.
  - rewrite Hk. exact IH.
Qed.

Lemma entriesOf_called (k : QueueKey) (p : Z) (q : list QueueEntry) :
  entriesOf k (map (fun e => if atSlot k p e then setPending true e else e) q)
  = map (fun e => if Z.eqb (position e) p then setPending true e else e)
        (entriesOf k q).
Proof.
  unfold entriesOf.
  induction q as [|e q IH]; simpl; [reflexivity|].
  assert (Hat : atSlot k p e = QueueKey_eqb (key e) k && Z.eqb (position e) p)
    by reflexivity.
  destruct (QueueKey_eqb (key e) k) eqn:Hk; simpl in Hat; rewrite Hat.
  - destruct (Z.eqb (position e) p) eqn:Hp; simpl; rewrite Hk; simpl;
      rewrite ?Hp, IH; reflexivity.
  - rewrite Hk. exact IH.
Qed.

(** X1: for a request that names a queue, getQueueTotal answers with the
    number of entries of that queue, the pending ones counted with the
    waiting ones, and leaves the Ledger as it was. *)
Theorem getQueueTotal_counts_the_queue (req : Request) (k : QueueKey) (w : World) :
  Names (get "doctorId" (query req)) req k ->
  ledgerRuns (QueueFindMany (keyWhere k None None) false SelectPosition) = true ->
  exists n : nat,
    fst (getQueueTotal req w) = Returned (mkResponse 200 (Total n))
    /\ n = List.length (entriesOf k (queue (ledger w)))
    /\ n = (List.length (filter (fun e => pending e) (entriesOf k (queue (ledger w))))
            + List.length (filter (fun e => negb (pending e))
                                  (entriesOf k (queue (ledger w)))))%nat
    /\ ledger (snd (getQueueTotal req w)) = ledger w.
Proof.
  intros H Hruns. rewrite (getQueueTotal_run req k w H Hruns); simpl.
  eexists; split; [reflexivity|]. split; [reflexivity|]. split; [|reflexivity].
  induction (entriesOf k (queue (ledger w))) as [|e l IH]; simpl; [reflexivity|].
  destruct (pending e); simpl; rewrite IH; lia.
Qed.

(** X2: the total of getQueueTotal is the number of rows getDoctorQueue
    answers with for the same queue. *)
Theorem getQueueTotal_is_length_of_getDoctorQueue
        (req : Request) (k : QueueKey) (w : World) :
  Names (get "doctorId" (params req)) req k ->
  Names (get "doctorId" (query req)) req k ->
  ledgerRuns (QueueFindMany (keyWhere k None None) true IncludeTicket) = true ->
  ledgerRuns (QueueFindMany (keyWhere k None None) false SelectPosition) = true ->
  exists qs : list QueueWithTicket,
    fst (getDoctorQueue req w) = Returned (mkResponse 200 (Queues qs))
    /\ fst (getQueueTotal req w) = Returned (mkResponse 200 (Total (List.length qs))).
Proof.
  intros Hp Hq Hlist Htotal.
  rewrite (getDoctorQueue_run req k w Hp Hlist), (getQueueTotal_run req k w Hq Htotal).
  simpl. eexists; split; [reflexivity|].
  rewrite length_map, (Permutation_length (sortByPosition_perm _)). reflexivity.
Qed.

(** X3: the position getPatientQueuePosition answers with is the
    position of the first row of getDoctorQueue's answer that is not
    pending, and nothing when every row of that answer is pending. *)
Theorem getPatientQueuePosition_is_first_waiting_row
        (req : Request) (k : QueueKey) (w : World) :
  Names (get "doctorId" (params req)) req k ->
  Names (get "doctorId" (query req)) req k ->
  ledgerRuns (QueueFindMany (keyWhere k None None) true IncludeTicket) = true ->
  ledgerRuns (QueueFindMany (keyWhere k (Some false) None) true SelectPosition) = true ->
  exists qs : list QueueWithTicket,
    fst (getDoctorQueue req w) = Returned (mkResponse 200 (Queues qs))
    /\ fst (getPatientQueuePosition req w)
       = Returned (mkResponse 200
           (Position (hd_error (map (fun q => position (entry q))
                                    (filter (fun q => negb (pending (entry q))) qs))))).
Proof.
  intros Hp Hq Hlist Hpos.
  rewrite (getDoctorQueue_run req k w Hp Hlist),
          (getPatientQueuePosition_run req k w Hq Hpos).
  simpl. eexists; split; [reflexivity|].
  rewrite filter_map_commute, map_map; simpl.
  rewrite sortByPosition_filter. reflexivity.
Qed.

(** X4: after deleteQueueEntry has removed position [p] of a queue,
    getDoctorQueue answers with its earlier answer less the rows at
    [p]: the other rows as they were, in the order they had. *)
Theorem getDoctorQueue_after_deleteQueueEntry
        (req : Request) (k : QueueKey) (p : Z) (w : World) :
  Names (get "doctorId" (params req)) req k ->
  Names (get "doctorId" (query req)) req k ->
  AtPosition req p ->
  ledgerRuns (QueueFindMany (keyWhere k None None) true IncludeTicket) = true ->
  ledgerRuns (QueueDeleteMany (keyWhere k None (Some p))) = true ->
  exists qs : list QueueWithTicket,
    fst (getDoctorQueue req w) = Returned (mkResponse 200 (Queues qs))
    /\ fst (getDoctorQueue req (after DeleteQueueEntry req w))
       = Returned (mkResponse 200
           (Queues (filter (fun q => negb (Z.eqb (position (entry q)) p)) qs))).
Proof.
  intros Hp Hq Hat Hlist Hdel. unfold after; simpl handler.
  rewrite (deleteQueueEntry_run req k p w Hq Hat Hdel); simpl.
  rewrite !(getDoctorQueue_run req k _ Hp Hlist); simpl.
  eexists; split; [reflexivity|].
  rewrite entriesOf_without_slot, <- sortByPosition_filter, filter_map_commute; simpl.
  reflexivity.
Qed.

(** X5: after markQueueEntryPending has called position [p] of a queue
    whose hospital identifier is a number, getDoctorQueue answers with
    the same rows in the same order, those at [p] now pending and
    nothing else changed. *)
Theorem getDoctorQueue_after_markQueueEntryPending
        (req : Request) (k : QueueKey) (h p : Z) (w : World) :
  Names (get "doctorId" (params req)) req k ->
  Names (get "doctorId" (query req)) req k ->
  hospitalId k = IdNum h ->
  AtPosition req p ->
  ledgerRuns (QueueFindMany (keyWhere k None None) true IncludeTicket) = true ->
  ledgerRuns (QueueUpdateMany (keyWhere k None (Some p)) true) = true ->
  exists qs : list QueueWithTicket,
    fst (getDoctorQueue req w) = Returned (mkResponse 200 (Queues qs))
    /\ fst (getDoctorQueue req (after MarkQueueEntryPending req w))
       = Returned (mkResponse 200
           (Queues (map (fun q => if Z.eqb (position (entry q)) p
                                  then mkJoined (setPending true (entry q)) (ticket q)
                                  else q) qs))).
Proof.
  intros Hp Hq Hh Hat Hlist Hupd. unfold after; simpl handler.
  rewrite (markQueueEntryPending_run_numeric req k h p w Hq Hh Hat Hupd); simpl.
  rewrite !(getDoctorQueue_run req k _ Hp Hlist); simpl.
  eexists; split; [reflexivity|].
  rewrite entriesOf_called.
  rewrite <- sortByPosition_map
    by (intros e; destruct (Z.eqb (position e) p); reflexivity).
  rewrite !map_map. do 3 f_equal.
  apply map_ext. intros e. unfold joinTicket, findTicket; simpl.
  destruct (Z.eqb (position e) p); reflexivity.
Qed.

(** X6: in a table with unique positions, removing a position that an
    entry of the queue has lowers the total of the queue by exactly
    one. *)
Theorem deleteQueueEntry_lowers_total_by_one
        (req : Request) (k : QueueKey) (p : Z) (w : World) :
  Names (get "doctorId" (query req)) req k ->
  AtPosition req p ->
  ledgerRuns (QueueDeleteMany (keyWhere k None (Some p))) = true ->
  ledgerRuns (QueueFindMany (keyWhere k None None) false SelectPosition) = true ->
  UniquePositions (queue (ledger w)) ->
  (exists e, In e (queue (ledger w)) /\ key e = k /\ position e = p) ->
  exists n : nat,
    fst (getQueueTotal req w) = Returned (mkResponse 200 (Total (S n)))
    /\ fst (getQueueTotal req (after DeleteQueueEntry req w))
       = Returned (mkResponse 200 (Total n)).
Proof.
  intros Hq Hat Hdel Htotal Hu Hex. unfold after; simpl handler.
  rewrite (deleteQueueEntry_run req k p w Hq Hat Hdel); simpl.
  rewrite !(getQueueTotal_run req k _ Hq Htotal); simpl.
  rewrite (unique_slot_count k p _ Hu Hex).
  eexists; split; reflexivity.
Qed.

(** X7: calling the position getPatientQueuePosition answers with moves
    the queue on: for a queue whose hospital identifier is a number,
    after markQueueEntryPending at that position the answer is a
    greater position, or nothing. *)
Theorem markQueueEntryPending_advances_the_queue
        (req : Request) (k : QueueKey) (h p : Z) (w : World) :
  Names (get "doctorId" (query req)) req k ->
  hospitalId k = IdNum h ->
  AtPosition req p ->
  ledgerRuns (QueueFindMany (keyWhere k (Some false) None) true SelectPosition) = true ->
  ledgerRuns (QueueUpdateMany (keyWhere k None (Some p)) true) = true ->
  fst (getPatientQueuePosition req w) = Returned (mkResponse 200 (Position (Some p))) ->
  exists r : option Z,
    fst (getPatientQueuePosition req (after MarkQueueEntryPending req w))
    = Returned (mkResponse 200 (Position r))
    /\ match r with
       | Some m => p < m
       | None => True
       end.
Proof.
  intros Hq Hh Hat Hpos Hupd Hcur. unfold after; simpl handler.
  rewrite (markQueueEntryPending_run_numeric req k h p w Hq Hh Hat Hupd); simpl.
  rewrite (getPatientQueuePosition_run req k w Hq Hpos) in Hcur; simpl in Hcur.
  rewrite (getPatientQueuePosition_run req k _ Hq Hpos); simpl.
  eexists; split; [reflexivity|].
  inversion Hcur as [Hhd]; clear Hcur.
  apply first_position_least in Hhd. destruct Hhd as [_ Hleast].
  rewrite entriesOf_called.
  match goal with |- match ?x with _ => _ end => destruct x as [m|] eqn:Hnew end;
    [|exact I].
  apply first_position_least in Hnew. destruct Hnew as [[e [He Hm]] _].
  apply filter_In in He. destruct He as [He Hwait].
  apply in_map_iff in He. destruct He as [x [Hx Hin]].
  destruct (Z.eqb (position x) p) eqn:Hxp.
  - subst e. simpl in Hwait. discriminate.
  - subst e. apply Z.eqb_neq in Hxp.
    assert (p <= position x) by (apply Hleast, filter_In; auto).
    lia.
Qed.

(** X22: a queue with no entry is no error: for a request that names
    it, getDoctorQueue answers 200 with no rows, getPatientQueuePosition
    200 with nothing, and getQueueTotal 200 with a total of 0. *)
Theorem empty_queue_is_no_error (req : Request) (k : QueueKey) (w : World) :
  Names (get "doctorId" (params req)) req k ->
  Names (get "doctorId" (query req)) req k ->
  ledgerRuns (QueueFindMany (keyWhere k None None) true IncludeTicket) = true ->
  ledgerRuns (QueueFindMany (keyWhere k (Some false) None) true SelectPosition) = true ->
  ledgerRuns (QueueFindMany (keyWhere k None None) false SelectPosition) = true ->
  (forall e, In e (queue (ledger w)) -> key e <> k) ->
  fst (getDoctorQueue req w) = Returned (mkResponse 200 (Queues []))
  /\ fst (getPatientQueuePosition req w) = Returned (mkResponse 200 (Position None))
  /\ fst (getQueueTotal req w) = Returned (mkResponse 200 (Total 0)).
Proof.
  intros Hp Hq Hlist Hpos Htotal Hempty.
  assert (Hnone : entriesOf k (queue (ledger w)) = []).
  { apply filter_none. intros e He.
    destruct (QueueKey_eqb (key e) k) eqn:Hk; [|reflexivity].
    apply QueueKey_eqb_eq in Hk. destruct (Hempty e He Hk). }
  rewrite (getDoctorQueue_run req k w Hp Hlist),
          (getPatientQueuePosition_run req k w Hq Hpos),
          (getQueueTotal_run req k w Hq Htotal), Hnone.
  repeat split.
Qed.

(** X23: calling a position that no entry has is no error either: for a
    queue whose hospital identifier is a number, markQueueEntryPending
    answers with success and leaves the Ledger as it was. *)
Theorem markQueueEntryPending_missing_position
        (req : Request) (k : QueueKey) (h p : Z) (w : World) :
  Names (get "doctorId" (query req)) req k ->
  hospitalId k = IdNum h ->
  AtPosition req p ->
  ledgerRuns (QueueUpdateMany (keyWhere k None (Some p)) true) = true ->
  (forall e, In e (queue (ledger w)) -> atSlot k p e = false) ->
  fst (markQueueEntryPending req w)
  = Returned (mkResponse 200 (Message "Queue entry marked as pending successfully"))
  /\ ledger (after MarkQueueEntryPending req w) = ledger w.
Proof.
  intros Hq Hh Hat Hupd Hnone. unfold after; simpl handler.
  rewrite (markQueueEntryPending_run_numeric req k h p w Hq Hh Hat Hupd); simpl.
  split; [reflexivity|].
  rewrite map_same; [apply withQueue_same|].
  intros e He. rewrite (Hnone e He). reflexivity.
Qed.

End ReadsAndWrites.

(** ** Errors, calls and how the writes compose *)

Section ErrorsAndWrites.

Context {E : Env}.

Lemma Evolves_length (l l' : list QueueEntry) :
  Evolves l l' -> (List.length l' <= List.length l)%nat.
Proof. induction 1; simpl; lia. Qed.

Lemma matchesWhere_NaN (wh : QueueWhere) (e : QueueEntry) :
  w_doctorId wh = NaN \/ w_position wh = Some NaN -> matchesWhere wh e = false.
Proof.
  unfold matchesWhere. intros [H|H]; rewrite H; simpl.
  - reflexivity.
  - rewrite andb_false_r. reflexivity.
Qed.

(** What a handler answers, and the Ledger it leaves, depend on the
    Ledger it finds and on nothing else of the world. *)
Lemma handler_reads_ledger_only (o : Op) (req : Request) (w1 w2 : World) :
  ledger w1 = ledger w2 ->
  fst (handler o req w1) = fst (handler o req w2)
  /\ ledger (after o req w1) = ledger (after o req w2).
Proof.
  destruct w1 as [l1 t1], w2 as [l2 t2]; simpl. intros ->.
  destruct o; unfold_handlers; simpl; split_cases; split; reflexivity.
Qed.

Lemma after_tickets (o : Op) (req : Request) (w : World) :
  tickets (ledger (after o req w)) = tickets (ledger w).
Proof. destruct o; unfold_handlers; split_cases; reflexivity. Qed.

Lemma after_futureReferences (o : Op) (req : Request) (w : World) :
  exists added,
    futureReferences (ledger (after o req w))
    = (futureReferences (ledger w) ++ added)%list.
Proof.
  destruct o; unfold_handlers; split_cases;
    first [ exists []; rewrite app_nil_r; reflexivity
          | eexists; reflexivity ].
Qed.

(** X8: no handler lets an exception escape: every request is answered,
    with status 200, 201, 400 or 500, and an answer of 400 or 500 leaves
    the Ledger as it was. *)
Theorem every_request_is_answered (o : Op) (req : Request) (w : World) :
  exists resp : Response,
    fst (handler o req w) = Returned resp
    /\ ((status resp = 200 \/ status resp = 201)
        \/ ((status resp = 400 \/ status resp = 500)
            /\ ledger (after o req w) = ledger w)).
Proof.
  destruct o; unfold_handlers; split_cases;
    (eexists; split; [reflexivity|]; simpl;
     first [ left; left; reflexivity
           | left; right; reflexivity
           | right; split; [left; reflexivity | reflexivity]
           | right; split; [right; reflexivity | reflexivity] ]).
Qed.

(** X9: a date that does not parse is answered with 500 before any call
    on the Ledger, by every handler that gets as far as the date: the
    world is as it was. *)
Theorem unparseable_date_never_reaches_ledger (o : Op) (req : Request) (w : World) :
  o = CreateFutureAppointment \/ queueRequest (body req) = true ->
  newDate (get (dateField o) (body req)) = None ->
  exists m : string, handler o req w = (Returned (mkResponse 500 (Message m)), w).
Proof.
  intros Hschema Hdate.
  destruct o; simpl in Hdate;
    (destruct Hschema as [Hc|Hs]; [try discriminate Hc|]);
    unfold_handlers; try rewrite Hs; simpl; rewrite Hdate; simpl;
    eexists; reflexivity.
Qed.

(** X10: a handler makes at most one call on the Ledger for a request,
    and only the call of its own kind: a read never deletes, updates or
    creates. *)
Theorem one_call_of_its_own_kind (o : Op) (req : Request) (w : World) :
  trace (after o req w) = trace w
  \/ exists c : LedgerCall,
       trace (after o req w) = (trace w ++ [c])%list /\ issues o c = true.
Proof.
  destruct o; unfold_handlers; split_cases;
    first [ left; reflexivity | right; eexists; split; reflexivity ].
Qed.

(** X11: a retry after a success changes nothing: once
    markQueueEntryPending has answered a request with success, the same
    request sent again leaves the Ledger as it was, whether the Ledger
    then runs the call or throws. *)
Theorem markQueueEntryPending_retry_changes_nothing
        (runs : LedgerCall -> bool) (req : Request) (resp : Response) (w w1 : World) :
  markQueueEntryPending req w = (Returned resp, w1) ->
  status resp = 200 ->
  ledger (snd (@markQueueEntryPending (withLedgerRuns E runs) req w1)) = ledger w1.
Proof.
  intros Hrun Hok.
  destruct (markQueueEntryPending_success req resp w w1 Hrun Hok)
    as [iso [Hd [_ Hq]]].
  assert (Hdate : @newDate (withLedgerRuns E runs) (get "appointmentDate" (body req))
                  = Some iso).
  { rewrite <- Hd. destruct (get "appointmentDate" (body req)); reflexivity. }
  assert (Hnum : forall v, @Number (withLedgerRuns E runs) v = Number v).
  { intros v; destruct v; reflexivity. }
  unfold_handlers.
  destruct (@queueRequest (withLedgerRuns E runs) (body req)); simpl; [|reflexivity].
  rewrite Hdate; simpl. rewrite !Hnum.
  fold (pendingWhere req iso).
  destruct (runs (QueueUpdateMany (pendingWhere req iso) true)); simpl; [|reflexivity].
  rewrite map_same; [apply withQueue_same|].
  rewrite Hq. intros e He.
  apply in_map_iff in He. destruct He as [x [<- _]].
  destruct (matchesWhere (pendingWhere req iso) x) eqn:Hm.
  - rewrite matchesWhere_setPending by reflexivity. rewrite Hm. reflexivity.
  - rewrite Hm. reflexivity.
Qed.

(** X12: a removal and a call commute: deleteQueueEntry for one request
    and markQueueEntryPending for another leave the same Ledger in
    either order. *)
Theorem delete_and_markPending_commute (r1 r2 : Request) (w : World) :
  ledger (after DeleteQueueEntry r1 (after MarkQueueEntryPending r2 w))
  = ledger (after MarkQueueEntryPending r2 (after DeleteQueueEntry r1 w)).
Proof.
  unfold_handlers.
  destruct (queueRequest (body r1)), (queueRequest (body r2)); simpl;
    try reflexivity;
    destruct (newDate (get "appointmentDate" (body r1))) as [i1|];
    destruct (newDate (get "appointmentDate" (body r2))) as [i2|]; simpl;
    try reflexivity;
    try (destruct (ledgerRuns (QueueDeleteMany _)); reflexivity);
    try (destruct (ledgerRuns (QueueUpdateMany _ _)); reflexivity).
  destruct (ledgerRuns (QueueDeleteMany _)), (ledgerRuns (QueueUpdateMany _ _));
    simpl; try reflexivity.
  unfold withQueue; simpl. f_equal.
  rewrite filter_map_commute. f_equal.
  apply filter_ext. intros e.
  destruct (matchesWhere _ e) eqn:Hm; [|reflexivity].
  rewrite matchesWhere_setPending by reflexivity. reflexivity.
Qed.

(** X13: markQueueEntryPending, for a queue whose hospital identifier is
    a number, sets pending on the rows at the named position and does
    nothing else: no row is added, removed, moved or renumbered, the
    entries of every other queue are as they were, and so are the other
    tables. *)
Theorem markQueueEntryPending_frame
        (req : Request) (k : QueueKey) (h p : Z) (w : World) :
  Names (get "doctorId" (query req)) req k ->
  hospitalId k = IdNum h ->
  AtPosition req p ->
  ledgerRuns (QueueUpdateMany (keyWhere k None (Some p)) true) = true ->
  queue (ledger (after MarkQueueEntryPending req w))
  = map (fun e => if atSlot k p e then setPending true e else e) (queue (ledger w))
  /\ map slot (queue (ledger (after MarkQueueEntryPending req w)))
     = map slot (queue (ledger w))
  /\ (forall k', k' <> k ->
        entriesOf k' (queue (ledger (after MarkQueueEntryPending req w)))
        = entriesOf k' (queue (ledger w)))
  /\ tickets (ledger (after MarkQueueEntryPending req w)) = tickets (ledger w)
  /\ futureReferences (ledger (after MarkQueueEntryPending req w))
     = futureReferences (ledger w).
Proof.
  intros Hq Hh Hat Hupd. unfold after; simpl handler.
  rewrite (markQueueEntryPending_run_numeric req k h p w Hq Hh Hat Hupd); simpl.
  repeat split.
  - rewrite map_map. apply map_ext. intros e.
    destruct (atSlot k p e); reflexivity.
  - intros k' Hne. unfold entriesOf.
    induction (queue (ledger w)) as [|e q IH]; simpl; [reflexivity|].
    destruct (atSlot k p e) eqn:Hslot; simpl.
    + unfold atSlot in Hslot. apply andb_true_iff in Hslot. destruct Hslot as [Hk _].
      apply QueueKey_eqb_eq in Hk.
      destruct (QueueKey_eqb (key e) k') eqn:Hk'; [|exact IH].
      apply QueueKey_eqb_eq in Hk'. congruence.
    + destruct (QueueKey_eqb (key e) k'); [f_equal|]; exact IH.
Qed.

(** X14: createFutureAppointment only appends: the record it built goes
    to the end of the future references when the Ledger runs the call,
    the references that were there stay as they were, and the queue and
    the tickets are never touched. *)
Theorem createFutureAppointment_appends (req : Request) (w : World) :
  queue (ledger (after CreateFutureAppointment req w)) = queue (ledger w)
  /\ tickets (ledger (after CreateFutureAppointment req w)) = tickets (ledger w)
  /\ futureReferences (ledger (after CreateFutureAppointment req w))
     = match newDate (get "nextdate" (body req)) with
       | None => futureReferences (ledger w)
       | Some iso =>
           if ledgerRuns (FutureReferenceCreate (futureData req iso))
           then (futureReferences (ledger w) ++ [futureData req iso])%list
           else futureReferences (ledger w)
       end.
Proof.
  unfold_handlers. unfold futureData.
  destruct (newDate (get "nextdate" (body req))) as [iso|]; simpl.
  - destruct (ledgerRuns (FutureReferenceCreate _)); simpl; repeat split.
  - repeat split.
Qed.

(** X15: a read leaves no mark on what follows: after getDoctorQueue,
    getPatientQueuePosition or getQueueTotal, every handler answers as
    it would have without the read, and leaves the Ledger it would
    have. *)
Theorem reads_do_not_interfere (o1 o2 : Op) (req1 req2 : Request) (w : World) :
  isRead o1 = true ->
  fst (handler o2 req2 (after o1 req1 w)) = fst (handler o2 req2 w)
  /\ ledger (after o2 req2 (after o1 req1 w)) = ledger (after o2 req2 w).
Proof.
  intros Hread. apply handler_reads_ledger_only.
  apply reads_keep_ledger. destruct o1; try discriminate; auto.
Qed.

(** X16: a doctorId or a position that [Number] turns into NaN (a field
    left out, a word in place of a number) makes deleteQueueEntry and
    markQueueEntryPending change nothing. *)
Theorem NaN_writes_change_nothing (o : Op) (req : Request) (w : World) :
  o = DeleteQueueEntry \/ o = MarkQueueEntryPending ->
  Number (get "doctorId" (query req)) = NaN
  \/ Number (get "position" (query req)) = NaN ->
  ledger (after o req w) = ledger w.
Proof.
  intros Ho Hnan.
  assert (Hnone : forall hosp iso e,
             matchesWhere {| w_doctorId := Number (get "doctorId" (query req));
                             w_appointmentDate := iso;
                             w_hospitalId := hosp;
                             w_pending := None;
                             w_position := Some (Number (get "position" (query req))) |} e
             = false).
  { intros hosp iso e. apply matchesWhere_NaN; simpl.
    destruct Hnan as [H|H]; [left | right]; rewrite H; reflexivity. }
  destruct Ho as [-> | ->]; unfold_handlers;
    (destruct (queueRequest (body req)); simpl; [|reflexivity]);
    (destruct (newDate (get "appointmentDate" (body req))) as [iso|]; simpl;
     [|reflexivity]).
  - destruct (ledgerRuns (QueueDeleteMany _)); simpl; [|reflexivity].
    rewrite filter_all; [apply withQueue_same|].
    intros e _. rewrite Hnone. reflexivity.
  - destruct (ledgerRuns (QueueUpdateMany _ _)); simpl; [|reflexivity].
    rewrite map_same; [apply withQueue_same|].
    intros e _. rewrite Hnone. reflexivity.
Qed.

(** X17: over any sequence of requests the queue table never grows (no
    handler adds an entry), the tickets are never touched, and the
    future references that were there stay, in their order, at the
    front of the table. *)
Theorem service_never_adds_to_the_queue (rs : list (Op * Request)) (w : World) :
  (List.length (queue (ledger (serve rs w))) <= List.length (queue (ledger w)))%nat
  /\ tickets (ledger (serve rs w)) = tickets (ledger w)
  /\ exists added,
       futureReferences (ledger (serve rs w))
       = (futureReferences (ledger w) ++ added)%list.
Proof.
  split; [apply Evolves_length, serve_evolves|].
  revert w; induction rs as [|[o req] rs IH]; intros w; simpl.
  - split; [reflexivity|]. exists []. rewrite app_nil_r. reflexivity.
  - destruct (IH (after o req w)) as [Ht [added Hf]].
    split; [rewrite Ht; apply after_tickets|].
    destruct (after_futureReferences o req w) as [first Hfirst].
    exists (first ++ added)%list. rewrite Hf, Hfirst, app_assoc. reflexivity.
Qed.

(** X18: over any sequence of requests positions stay unique: a table
    in which no two entries share a queue and a position stays one. *)
Theorem service_keeps_positions_unique (rs : list (Op * Request)) (w : World) :
  UniquePositions (queue (ledger w)) ->
  UniquePositions (queue (ledger (serve rs w))).
Proof. apply Evolves_unique, serve_evolves. Qed.

(** X19: over any sequence of requests an entry is never moved: every
    row of the queue table has the queue, the position, the ticket and
    the creation time of a row that was there at the start. *)
Theorem entries_are_never_moved (rs : list (Op * Request)) (w : World) (e' : QueueEntry) :
  In e' (queue (ledger (serve rs w))) ->
  exists e, In e (queue (ledger w))
            /\ key e' = key e /\ position e' = position e
            /\ ticketRef e' = ticketRef e /\ createdAt e' = createdAt e.
Proof.
  intros Hin.
  destruct (Evolves_In _ _ (serve_evolves rs w) e' Hin) as [e [He [-> | ->]]];
    exists e; simpl; auto.
Qed.

End ErrorsAndWrites.

(** ** The broadcaster over a sequence of messages *)

Lemma client_eta (Data : Type) (c : Socket.Client Data) :
  Socket.mkClient (Socket.socketId Data c) (Socket.received Data c ++ [])%list = c.
Proof. destruct c; simpl. rewrite app_nil_r. reflexivity. Qed.

Lemma io_emit_map (Data : Type) (name : string) (args : list Data)
      (io : Socket.Server Data) :
  Socket.io_emit Data name args io
  = map (fun c => Socket.mkClient (Socket.socketId Data c)
                    (Socket.received Data c ++ [Socket.mkEvent name args])%list) io.
Proof. reflexivity. Qed.

(** What one message sends out: the same events to every socket, at
    most two, carrying nothing but the payload of the message. *)
Lemma on_sends_the_same_to_all (Data : Type) (msg : Socket.Incoming Data) :
  exists evs : list (Socket.Event Data),
    (forall io, Socket.on Data msg io
                = map (fun c => Socket.mkClient (Socket.socketId Data c)
                                  (Socket.received Data c ++ evs)%list) io)
    /\ (List.length evs <= 2)%nat
    /\ Forall (fun ev => incl (Socket.eventArgs Data ev) (Socket.payload Data msg)) evs.
Proof.
  destruct msg as [data|data| | |m]; simpl.
  - exists [Socket.mkEvent "patient-request" [data]].
    split; [reflexivity|]. split; [simpl; lia|].
    constructor; [apply incl_refl | constructor].
  - exists [Socket.mkEvent "fetch-ticket" []; Socket.mkEvent "UserTicket" [data]].
    split; [|split; [simpl; lia|]].
    + intros io. rewrite !io_emit_map, map_map; simpl.
      apply map_ext. intros c. rewrite <- app_assoc. reflexivity.
    + constructor; [apply incl_nil_l|].
      constructor; [apply incl_refl | constructor].
  - exists [Socket.mkEvent "doctorFetchQueue" []].
    split; [reflexivity|]. split; [simpl; lia|].
    constructor; [apply incl_refl | constructor].
  - exists []. split; [|split; [simpl; lia | constructor]].
    intros io. rewrite (map_ext _ (fun c => c) (client_eta Data)), map_id. reflexivity.
  - exists [Socket.mkEvent "message" [m]].
    split; [reflexivity|]. split; [simpl; lia|].
    constructor; [apply incl_refl | constructor].
Qed.

Lemma filter_and {A : Type} (f g : A -> bool) (l : list A) :
  filter g (filter f l) = filter (fun x => f x && g x) l.
Proof.
  induction l as [|x l IH]; simpl; [reflexivity|].
  destruct (f x); simpl; [destruct (g x)|]; rewrite IH; reflexivity.
Qed.

(** X20: over any sequence of connections, messages and disconnections,
    the sockets that were connected at the start and have not
    disconnected have all been delivered the same events in the same
    order (at most two for a message, carrying nothing but payloads that
    came in with the messages); a socket that has disconnected is out;
    a socket that connected on the way has been delivered only the
    events sent since, the last of those the others got. *)
Theorem every_socket_sees_the_same_events
        (Data : Type) (ts : list (Socket.Transport Data)) :
  exists (evs : list (Socket.Event Data)) (late : Socket.Server Data),
    (forall io,
        Socket.run Data ts io
        = (map (fun c => Socket.mkClient (Socket.socketId Data c)
                           (Socket.received Data c ++ evs))
               (filter (fun c => Socket.stays Data ts (Socket.socketId Data c)) io)
           ++ late)%list)
    /\ (List.length evs <= 2 * List.length (Socket.messages Data ts))%nat
    /\ Forall (fun ev => incl (Socket.eventArgs Data ev)
                              (flat_map (Socket.payload Data) (Socket.messages Data ts)))
              evs
    /\ Forall (fun c => exists before,
                          evs = (before ++ Socket.received Data c)%list) late.
Proof.
  induction ts as [|t ts IH].
  - exists [], []. split; [|split; [simpl; lia | split; constructor]].
    intros io; simpl. rewrite app_nil_r.
    rewrite filter_all by reflexivity.
    rewrite (map_ext _ (fun c => c) (client_eta Data)), map_id. reflexivity.
  - destruct IH as [evs2 [late2 [Hrun [Hlen [Hfrom Hsuf]]]]].
    destruct t as [id|id msg].
    + exists evs2.
      exists (map (fun c => Socket.mkClient (Socket.socketId Data c)
                              (Socket.received Data c ++ evs2))
                  (filter (fun c => Socket.stays Data ts (Socket.socketId Data c))
                          [Socket.mkClient id []])
              ++ late2)%list.
      split; [|split; [exact Hlen | split; [exact Hfrom|]]].
      * intros io. simpl Socket.run. unfold Socket.step.
        rewrite Hrun, filter_app, map_app, <- app_assoc. reflexivity.
      * apply Forall_app; split; [|exact Hsuf].
        simpl. destruct (Socket.stays Data ts id); simpl; constructor;
          [exists []; reflexivity | constructor].
    + destruct (on_sends_the_same_to_all Data msg) as [evs1 [Hon [Hlen1 Hfrom1]]].
      exists (evs1 ++ evs2)%list, late2.
      split; [|split; [|split]].
      * intros io.
        change (Socket.run Data (Socket.incoming Data id msg :: ts) io)
          with (Socket.run Data ts (Socket.step Data (Socket.incoming Data id msg) io)).
        assert (Hstep : Socket.step Data (Socket.incoming Data id msg) io
                        = map (fun c => Socket.mkClient (Socket.socketId Data c)
                                          (Socket.received Data c ++ evs1))
                              (filter (fun c =>
                                         Socket.stays Data [Socket.incoming Data id msg]
                                                      (Socket.socketId Data c)) io)).
        { destruct msg; simpl Socket.step; simpl Socket.stays;
            try (rewrite (filter_all (fun _ => true)) by reflexivity; apply Hon).
          rewrite <- Hon. simpl. unfold Socket.leave.
          apply filter_ext. intros c. rewrite andb_true_r. reflexivity. }
        rewrite Hstep, Hrun. f_equal.
        rewrite filter_map_commute, map_map; simpl. rewrite filter_and.
        rewrite (filter_ext _ (fun c => Socket.stays Data (Socket.incoming Data id msg :: ts)
                                                     (Socket.socketId Data c))).
        -- apply map_ext. intros c. rewrite app_assoc. reflexivity.
        -- intros c. destruct msg; simpl; rewrite ?andb_true_r; reflexivity.
      * simpl. rewrite length_app. lia.
      * apply Forall_app; split.
        -- eapply Forall_impl; [|exact Hfrom1].
           intros ev Hev; simpl. apply incl_appl, Hev.
        -- eapply Forall_impl; [|exact Hfrom].
           intros ev Hev; simpl. apply incl_appr, Hev.
      * eapply Forall_impl; [|exact Hsuf].
        intros c [before Hb]; simpl. exists (evs1 ++ before)%list.
        rewrite Hb, app_assoc. reflexivity.
Qed.

(** X21: the other listeners: `book-appointment` reaches every connected
    socket as one `patient-request` with the data it came with,
    `doctorFetchQueue` as one `doctorFetchQueue` with no payload,
    `message` as one `message` with the text; `disconnect` delivers
    nothing and leaves the server as it was. *)
Theorem relays_reach_every_socket
        (Data : Type) (d : Data) (io : Socket.Server Data) :
  let delivered (evs : list (Socket.Event Data)) :=
    Forall2 (fun before after =>
               Socket.socketId Data after = Socket.socketId Data before
               /\ Socket.received Data after
                  = (Socket.received Data before ++ evs)%list) io in
  delivered [Socket.mkEvent "patient-request" [d]]
            (Socket.on Data (Socket.book_appointment Data d) io)
  /\ delivered [Socket.mkEvent "doctorFetchQueue" []]
               (Socket.on Data Socket.doctorFetchQueue io)
  /\ delivered [Socket.mkEvent "message" [d]]
               (Socket.on Data (Socket.message Data d) io)
  /\ Socket.on Data Socket.disconnect io = io.
Proof.
  simpl. split; [|split; [|split]].
  - induction io as [|c io IH]; simpl; constructor; auto.
  - induction io as [|c io IH]; simpl; constructor; auto.
  - induction io as [|c io IH]; simpl; constructor; auto.
  - reflexivity.
Qed.

(** ** The further properties on the sample worlds *)

Lemma sample_names_n7_params (p : string) :
  @Names Sample.env (get "doctorId" (params (Sample.request (Num (Int 7)) p)))
         (Sample.request (Num (Int 7)) p) Sample.n7.
Proof. split; reflexivity. Defined.

Lemma sample_names_n7_query (p : string) :
  @Names Sample.env (get "doctorId" (query (Sample.request (Num (Int 7)) p)))
         (Sample.request (Num (Int 7)) p) Sample.n7.
Proof. split; reflexivity. Defined.

Lemma getQueueTotal_counts_the_queue_witness :
  @Names Sample.env (Str "5") (Sample.request (Str "H1") "0") Sample.h1
  /\ exists n : nat,
      fst (@getQueueTotal Sample.env (Sample.request (Str "H1") "0") Sample.world)
      = Returned (mkResponse 200 (Total n))
      /\ n = List.length (entriesOf Sample.h1 (queue Sample.store)).
Proof.
  split; [exact (sample_names_query "0")|].
  destruct (@getQueueTotal_counts_the_queue Sample.env
              (Sample.request (Str "H1") "0") Sample.h1 Sample.world
              (sample_names_query "0") eq_refl) as [n [Hn [Hlen _]]].
  exists n. split; [exact Hn | exact Hlen].
Defined.

Lemma getQueueTotal_is_length_of_getDoctorQueue_witness :
  @Names Sample.env (Str "5") (Sample.request (Str "H1") "0") Sample.h1
  /\ exists qs : list QueueWithTicket,
      fst (@getDoctorQueue Sample.env (Sample.request (Str "H1") "0") Sample.world)
      = Returned (mkResponse 200 (Queues qs))
      /\ fst (@getQueueTotal Sample.env (Sample.request (Str "H1") "0") Sample.world)
         = Returned (mkResponse 200 (Total (List.length qs))).
Proof.
  split; [exact (sample_names_query "0")|].
  exact (@getQueueTotal_is_length_of_getDoctorQueue Sample.env
           (Sample.request (Str "H1") "0") Sample.h1 Sample.world
           (sample_names_params "0") (sample_names_query "0") eq_refl eq_refl).
Defined.

Lemma getPatientQueuePosition_is_first_waiting_row_witness :
  @Names Sample.env (Str "5") (Sample.request (Str "H1") "0") Sample.h1
  /\ exists qs : list QueueWithTicket,
      fst (@getDoctorQueue Sample.env (Sample.request (Str "H1") "0") Sample.world)
      = Returned (mkResponse 200 (Queues qs))
      /\ fst (@getPatientQueuePosition Sample.env
                (Sample.request (Str "H1") "0") Sample.world)
         = Returned (mkResponse 200
             (Position (hd_error (map (fun q => position (entry q))
                                      (filter (fun q => negb (pending (entry q))) qs))))).
Proof.
  split; [exact (sample_names_query "0")|].
  exact (@getPatientQueuePosition_is_first_waiting_row Sample.env
           (Sample.request (Str "H1") "0") Sample.h1 Sample.world
           (sample_names_params "0") (sample_names_query "0") eq_refl eq_refl).
Defined.

Lemma getDoctorQueue_after_deleteQueueEntry_witness :
  @Names Sample.env (Str "5") (Sample.request (Str "H1") "1") Sample.h1
  /\ @AtPosition Sample.env (Sample.request (Str "H1") "1") 1
  /\ exists qs : list QueueWithTicket,
      fst (@getDoctorQueue Sample.env (Sample.request (Str "H1") "1") Sample.world)
      = Returned (mkResponse 200 (Queues qs))
      /\ fst (@getDoctorQueue Sample.env (Sample.request (Str "H1") "1")
                (@after Sample.env DeleteQueueEntry (Sample.request (Str "H1") "1")
                   Sample.world))
         = Returned (mkResponse 200
             (Queues (filter (fun q => negb (Z.eqb (position (entry q)) 1)) qs))).
Proof.
  split; [exact (sample_names_query "1")|].
  split; [reflexivity|].
  exact (@getDoctorQueue_after_deleteQueueEntry Sample.env
           (Sample.request (Str "H1") "1") Sample.h1 1 Sample.world
           (sample_names_params "1") (sample_names_query "1")
           eq_refl eq_refl eq_refl).
Defined.

Lemma getDoctorQueue_after_markQueueEntryPending_witness :
  @Names Sample.env (Str "5") (Sample.request (Num (Int 7)) "1") Sample.n7
  /\ @AtPosition Sample.env (Sample.request (Num (Int 7)) "1") 1
  /\ exists qs : list QueueWithTicket,
      fst (@getDoctorQueue Sample.env (Sample.request (Num (Int 7)) "1") Sample.clinic)
      = Returned (mkResponse 200 (Queues qs))
      /\ fst (@getDoctorQueue Sample.env (Sample.request (Num (Int 7)) "1")
                (@after Sample.env MarkQueueEntryPending
                   (Sample.request (Num (Int 7)) "1") Sample.clinic))
         = Returned (mkResponse 200
             (Queues (map (fun q => if Z.eqb (position (entry q)) 1
                                    then mkJoined (setPending true (entry q)) (ticket q)
                                    else q) qs))).
Proof.
  split; [exact (sample_names_n7_query "1")|].
  split; [reflexivity|].
  exact (@getDoctorQueue_after_markQueueEntryPending Sample.env
           (Sample.request (Num (Int 7)) "1") Sample.n7 7 1 Sample.clinic
           (sample_names_n7_params "1") (sample_names_n7_query "1")
           eq_refl eq_refl eq_refl eq_refl).
Defined.

Lemma deleteQueueEntry_lowers_total_by_one_witness :
  UniquePositions (queue Sample.store)
  /\ In (Sample.entryAt Sample.h1 1 102 false) (queue Sample.store)
  /\ exists n : nat,
      fst (@getQueueTotal Sample.env (Sample.request (Str "H1") "1") Sample.world)
      = Returned (mkResponse 200 (Total (S n)))
      /\ fst (@getQueueTotal Sample.env (Sample.request (Str "H1") "1")
                (@after Sample.env DeleteQueueEntry (Sample.request (Str "H1") "1")
                   Sample.world))
         = Returned (mkResponse 200 (Total n)).
Proof.
  assert (Hin : In (Sample.entryAt Sample.h1 1 102 false) (queue Sample.store))
    by (simpl; auto).
  split; [exact sample_store_unique|].
  split; [exact Hin|].
  apply (@deleteQueueEntry_lowers_total_by_one Sample.env
           (Sample.request (Str "H1") "1") Sample.h1 1 Sample.world
           (sample_names_query "1") eq_refl eq_refl eq_refl sample_store_unique).
  exists (Sample.entryAt Sample.h1 1 102 false).
  split; [exact Hin|]. split; reflexivity.
Defined.

Lemma markQueueEntryPending_advances_the_queue_witness :
  fst (@getPatientQueuePosition Sample.env (Sample.request (Num (Int 7)) "0")
         Sample.clinic)
  = Returned (mkResponse 200 (Position (Some 0)))
  /\ exists r : option Z,
      fst (@getPatientQueuePosition Sample.env (Sample.request (Num (Int 7)) "0")
             (@after Sample.env MarkQueueEntryPending
                (Sample.request (Num (Int 7)) "0") Sample.clinic))
      = Returned (mkResponse 200 (Position r))
      /\ match r with
         | Some m => 0 < m
         | None => True
         end.
Proof.
  split; [reflexivity|].
  exact (@markQueueEntryPending_advances_the_queue Sample.env
           (Sample.request (Num (Int 7)) "0") Sample.n7 7 0 Sample.clinic
           (sample_names_n7_query "0") eq_refl eq_refl eq_refl eq_refl eq_refl).
Defined.

Lemma unparseable_date_never_reaches_ledger_witness :
  Sample.schema (body Sample.noDate) = true
  /\ Sample.isoDateParse "tomorrow" = None
  /\ exists m : string,
      @handler Sample.env GetQueueTotal Sample.noDate Sample.world
      = (Returned (mkResponse 500 (Message m)), Sample.world).
Proof.
  split; [reflexivity|]. split; [reflexivity|].
  apply (@unparseable_date_never_reaches_ledger Sample.env GetQueueTotal
           Sample.noDate Sample.world).
  - right; reflexivity.
  - reflexivity.
Defined.

Lemma markQueueEntryPending_frame_witness :
  @Names Sample.env (Str "5") (Sample.request (Num (Int 7)) "1") Sample.n7
  /\ @AtPosition Sample.env (Sample.request (Num (Int 7)) "1") 1
  /\ map slot (queue (ledger (@after Sample.env MarkQueueEntryPending
                                (Sample.request (Num (Int 7)) "1") Sample.clinic)))
     = map slot (queue (ledger Sample.clinic)).
Proof.
  split; [exact (sample_names_n7_query "1")|].
  split; [reflexivity|].
  exact (proj1 (proj2 (@markQueueEntryPending_frame Sample.env
                         (Sample.request (Num (Int 7)) "1") Sample.n7 7 1 Sample.clinic
                         (sample_names_n7_query "1") eq_refl eq_refl eq_refl))).
Defined.

Lemma reads_do_not_interfere_witness :
  isRead GetDoctorQueue = true
  /\ fst (@handler Sample.env DeleteQueueEntry (Sample.request (Str "H1") "1")
            (@after Sample.env GetDoctorQueue (Sample.request (Str "H1") "0")
               Sample.world))
     = fst (@handler Sample.env DeleteQueueEntry (Sample.request (Str "H1") "1")
              Sample.world).
Proof.
  split; [reflexivity|].
  exact (proj1 (@reads_do_not_interfere Sample.env GetDoctorQueue DeleteQueueEntry
                  (Sample.request (Str "H1") "0") (Sample.request (Str "H1") "1")
                  Sample.world eq_refl)).
Defined.

Lemma NaN_writes_change_nothing_witness :
  @Number Sample.env (get "doctorId" (query Sample.noDoctor)) = NaN
  /\ ledger (@after Sample.env DeleteQueueEntry Sample.noDoctor Sample.world)
     = Sample.store.
Proof.
  split; [reflexivity|].
  apply (@NaN_writes_change_nothing Sample.env DeleteQueueEntry Sample.noDoctor
           Sample.world).
  - left; reflexivity.
  - left; reflexivity.
Defined.

Lemma service_keeps_positions_unique_witness :
  UniquePositions (queue Sample.store)
  /\ UniquePositions (queue (ledger (@serve Sample.env Sample.later Sample.world))).
Proof.
  split; [exact sample_store_unique|].
  apply (@service_keeps_positions_unique Sample.env Sample.later Sample.world).
  exact sample_store_unique.
Defined.

Lemma entries_are_never_moved_witness :
  In (Sample.entryAt Sample.n7 0 201 true)
     (queue (ledger (@serve Sample.env Sample.later Sample.called)))
  /\ exists e, In e (queue (ledger Sample.called))
               /\ key (Sample.entryAt Sample.n7 0 201 true) = key e
               /\ position (Sample.entryAt Sample.n7 0 201 true) = position e
               /\ ticketRef (Sample.entryAt Sample.n7 0 201 true) = ticketRef e
               /\ createdAt (Sample.entryAt Sample.n7 0 201 true) = createdAt e.
Proof.
  assert (Hin : In (Sample.entryAt Sample.n7 0 201 true)
                   (queue (ledger (@serve Sample.env Sample.later Sample.called))))
    by (vm_compute; auto).
  split; [exact Hin|].
  exact (@entries_are_never_moved Sample.env Sample.later Sample.called _ Hin).
Defined.

Lemma sample_names_d6 :
  @Names Sample.env (Str "6") Sample.doctor6 Sample.d6.
Proof. split; reflexivity. Defined.

Lemma empty_queue_is_no_error_witness :
  (forall e, In e (queue Sample.store) -> key e <> Sample.d6)
  /\ fst (@getQueueTotal Sample.env Sample.doctor6 Sample.world)
     = Returned (mkResponse 200 (Total 0)).
Proof.
  assert (Hnone : forall e, In e (queue Sample.store) -> key e <> Sample.d6).
  { simpl. intros e [<-|[<-|[<-|[<-|[]]]]]; discriminate. }
  split; [exact Hnone|].
  exact (proj2 (proj2 (@empty_queue_is_no_error Sample.env
           Sample.doctor6 Sample.d6 Sample.world
           sample_names_d6 sample_names_d6 eq_refl eq_refl eq_refl Hnone))).
Defined.

Lemma markQueueEntryPending_missing_position_witness :
  (forall e, In e (queue (ledger Sample.clinic)) -> atSlot Sample.n7 9 e = false)
  /\ ledger (@after Sample.env MarkQueueEntryPending
               (Sample.request (Num (Int 7)) "9") Sample.clinic)
     = ledger Sample.clinic.
Proof.
  assert (Hnone : forall e, In e (queue (ledger Sample.clinic)) ->
                            atSlot Sample.n7 9 e = false).
  { simpl. intros e [<-|[<-|[<-|[<-|[]]]]]; reflexivity. }
  split; [exact Hnone|].
  exact (proj2 (@markQueueEntryPending_missing_position Sample.env
                  (Sample.request (Num (Int 7)) "9") Sample.n7 7 9 Sample.clinic
                  (sample_names_n7_query "9") eq_refl eq_refl eq_refl Hnone)).
Defined.

Lemma markQueueEntryPending_retry_changes_nothing_witness :
  ledger (snd (@markQueueEntryPending (withLedgerRuns Sample.env (fun _ => true))
                 (Sample.request (Num (Int 7)) "0") Sample.called))
  = ledger Sample.called.
Proof.
  apply (@markQueueEntryPending_retry_changes_nothing Sample.env (fun _ => true)
           (Sample.request (Num (Int 7)) "0")
           (mkResponse 200 (Message "Queue entry marked as pending successfully"))
           Sample.world Sample.called).
  - reflexivity.
  - reflexivity.
Defined.
